(** * argskwargs: a container for positional and keyword arguments

    A shallow embedding of [argskwargs.py] and the properties of its
    [Arguments] class.

    Python objects that carry identity (the stored tuple, the stored dict,
    the [Arguments] instances) live in an explicit store and are referred
    to by index, so that sharing and in-place mutation are visible.  The
    values a container holds are opaque: the development is parametric in
    their type, in their [==] and in their [repr].  The [args] slot of
    an instance refers to a tuple and the [kwargs] slot to a dict, as the
    star parameters of the factory make them.  Callables are functions
    of the caller, the factory or partial objects; the caller's functions
    act on a state of their own (the [env] of the store) and receive the
    unpacked arguments.  A method that takes star parameters binds the
    keywords of the call before its body runs, and [==] and [!=] on
    instances choose the method to run as Python does. *)

From Stdlib Require Import ZArith DecimalString.
From stdpp Require Import base list strings sorting.

Open Scope string_scope.
Open Scope list_scope.

(** ** Dictionaries

    A Python [dict] keyed by strings, in insertion order.  Keys are unique
    in every dict the interpreter builds ([dict_wf]). *)

Definition dict (V : Type) := list (string * V).

Definition dict_wf {V} (d : dict V) : Prop := NoDup (d.*1).

Fixpoint dict_get {V} (k : string) (d : dict V) : option V :=
  match d with
  | [] => None
  | (k', v) :: d' => if String.eqb k k' then Some v else dict_get k d'
  end.

(** [d[k] = v]: an existing key keeps its position, a new key goes last. *)
Fixpoint dict_setitem {V} (k : string) (v : V) (d : dict V) : dict V :=
  match d with
  | [] => [(k, v)]
  | (k', v') :: d' =>
      if String.eqb k k' then (k', v) :: d' else (k', v') :: dict_setitem k v d'
  end.

(** [d.update(other)]: the items of [other] are stored in order. *)
Definition dict_update {V} (d other : dict V) : dict V :=
  fold_left (fun acc kv => dict_setitem kv.1 kv.2 acc) other d.

(** Binding the keywords of a call to a function whose parameters [params]
    are given by position and whose other keywords go to its double-star
    parameter: the first keyword that names one of [params] would be a
    second value for it. *)
Definition keyword_clash {V} (params : list string) (kwargs : dict V)
    : option string :=
  match List.find (fun kv => bool_decide (kv.1 ∈ params)) kwargs with
  | Some kv => Some kv.1
  | None => None
  end.

(** The keywords can be bound: none of them names a parameter. *)
Definition binds {V} (params : list string) (kwargs : dict V) : bool :=
  match keyword_clash params kwargs with
  | Some _ => false
  | None => true
  end.

(** [bool(d)] and [bool(t)]: a container is true when it is not empty. *)
Definition truthy {A} (l : list A) : bool :=
  match l with [] => false | _ => true end.

(** [a == b] on tuples: same length and equal items. *)
Fixpoint tuple_eqb {V} (eqv : V -> V -> bool) (a b : list V) : bool :=
  match a, b with
  | [], [] => true
  | x :: a', y :: b' => eqv x y && tuple_eqb eqv a' b'
  | _, _ => false
  end.

(** [a == b] on dicts: same size, and every key of [a] is a key of [b]
    with an equal value. *)
Definition dict_eqb {V} (eqv : V -> V -> bool) (a b : dict V) : bool :=
  Nat.eqb (length a) (length b)
  && forallb (fun kv => match dict_get kv.1 b with
                        | Some w => eqv kv.2 w
                        | None => false
                        end) a.

(** [sorted(d.items())]: the (name, value) pairs in increasing order.
    Pairs are compared on the name; two items of one dict never share a
    name, so the values are not compared. *)
Definition item_le {V} (x y : string * V) : Prop := String.le x.1 y.1.

#[global] Instance item_le_dec {V} : RelDecision (@item_le V).
Proof. intros x y. unfold item_le. apply _. Defined.

Definition sorted_items {V} (d : dict V) : list (string * V) :=
  merge_sort item_le d.

(** ** A concrete universe of stored values, for the examples

    [None], booleans and integers, with Python's [==] ([True == 1]) and
    [repr]. *)

Inductive pyval : Type :=
| PNone
| PBool (b : bool)
| PInt (n : Z).

Definition pyval_num (v : pyval) : option Z :=
  match v with
  | PNone => None
  | PBool b => Some (if b then 1 else 0)%Z
  | PInt n => Some n
  end.

Definition pyval_eq (a b : pyval) : bool :=
  match pyval_num a, pyval_num b with
  | None, None => true
  | Some x, Some y => Z.eqb x y
  | _, _ => false
  end.

Definition pyval_repr (v : pyval) : string :=
  match v with
  | PNone => "None"
  | PBool true => "True"
  | PBool false => "False"
  | PInt n => NilZero.string_of_int (Z.to_int n)
  end.

(** Two test callables: [FRecord] appends its arguments to a call log and
    returns [None]; [FBoom] raises. *)
Inductive pyfn : Type := FRecord | FBoom.

Definition pylog : Type := list (list pyval * dict pyval).

(** ** Outcomes

    A computation returns a value or raises.  [TypeError] and
    [AttributeError] are the interpreter's; [Raised e] is an exception of
    a callable, carrying the raised object; [SystemError] stands for a
    reference to an object that does not exist, which no run from a valid
    store reaches. *)

Inductive exn (V : Type) : Type :=
| TypeError (msg : string)
| AttributeError (name : string)
| SystemError
| Raised (e : V).

Inductive outcome (V A : Type) : Type :=
| Ok (a : A)
| Raise (e : exn V).

Arguments TypeError {V} msg.
Arguments AttributeError {V} name.
Arguments SystemError {V}.
Arguments Raised {V} e.
Arguments Ok {V A} a.
Arguments Raise {V A} e.

Definition pyrun (f : pyfn) (args : list pyval) (kwargs : dict pyval)
    (w : pylog) : outcome pyval pyval * pylog :=
  match f with
  | FRecord => (Ok PNone, w ++ [(args, kwargs)])
  | FBoom => (Raise (Raised (PInt 13)), w)
  end.

(** ** Classes, instances and the store *)

(** The class of an instance: [Arguments] itself, or a class derived from
    it ([class Sub(Arguments)]), numbered. *)
Inductive pyclass : Type :=
| CArguments
| CSubclass (n : nat).

#[global] Instance pyclass_eq_dec : EqDecision pyclass.
Proof. solve_decision. Defined.

(** An instance has the two slots of [__slots__ = ('args', 'kwargs')];
    a slot is unset until [__init__] or [__setstate__] assigns it, and
    then holds a reference to a tuple, respectively to a dict. *)
Record instance : Type := Instance {
  inst_class : pyclass;
  inst_args : option nat;
  inst_kwargs : option nat
}.

(** Python values as this module sees them. *)
Inductive value (V : Type) : Type :=
| VElem (e : V)          (* a stored value, opaque *)
| VObject (n : nat)      (* an instance of plain [object], by identity *)
| VTuple (r : nat)       (* reference to a tuple of the store *)
| VDict (r : nat)        (* reference to a dict of the store *)
| VInstance (r : nat).   (* reference to an instance of [Arguments] or of a subclass *)

Arguments VElem {V} e.
Arguments VObject {V} n.
Arguments VTuple {V} r.
Arguments VDict {V} r.
Arguments VInstance {V} r.

(** [a is b] *)
Definition value_is {V} (a b : value V) : bool :=
  match a, b with
  | VObject n, VObject m => Nat.eqb n m
  | VTuple n, VTuple m => Nat.eqb n m
  | VDict n, VDict m => Nat.eqb n m
  | VInstance n, VInstance m => Nat.eqb n m
  | _, _ => false
  end.

(** [_yes_i_am_an_internal_call = object()], created when the module is
    imported: the first plain object. *)
Definition _yes_i_am_an_internal_call {V} : value V := VObject 0.

Record store (V W : Type) : Type := Store {
  tuples : list (list V);
  dicts : list (dict V);
  instances : list instance;
  env : W
}.

Arguments Store {V W} tuples dicts instances env.
Arguments tuples {V W} s.
Arguments dicts {V W} s.
Arguments instances {V W} s.
Arguments env {V W} s.

(** A callable target: a function of the caller, the factory [argskwargs]
    of this module, or a [functools.partial] object. *)
Inductive pycallable (F V : Type) : Type :=
| Fn (f : F)
| FArgskwargs
| Partial (func : pycallable F V) (pargs : list V) (pkeywords : dict V).

Arguments Fn {F V} f.
Arguments FArgskwargs {F V}.
Arguments Partial {F V} func pargs pkeywords.

(** Data for the examples: two positionals, and the same two named
    arguments inserted in two orders. *)
Definition P1 : list pyval := [PInt 2; PInt 1].
Definition N1 : dict pyval := [("b", PInt 2); ("a", PInt 1)].
Definition N2 : dict pyval := [("a", PInt 1); ("b", PInt 2)].

(** Stores for the examples: the empty one, and one with two bundles of
    equal content built in different orders, an instance of a derived
    class sharing the containers of the first bundle, and a bundle with
    one positional. *)
Definition store0 : store pyval pylog := Store [] [] [] [].

Definition store1 : store pyval pylog :=
  Store [P1; P1; [PInt 1]]
        [N1; N2; []]
        [Instance CArguments (Some 0) (Some 0);
         Instance CArguments (Some 1) (Some 1);
         Instance (CSubclass 0) (Some 0) (Some 0);
         Instance CArguments (Some 2) (Some 2)]
        [].

Declare Scope py_scope.
Delimit Scope py_scope with py.

Section Model.

Context {V F W : Type}.

(** [py_eq x y] is the comparison Python's containers apply to their
    items ([x is y or x == y]); [py_repr] is [repr]; [run] gives the
    behaviour of the caller's functions on their own state. *)
Variable py_eq : V -> V -> bool.
Variable py_repr : V -> string.
Variable run : F -> list V -> dict V -> W -> outcome V V * W.

(** *** The store monad *)

Definition M (A : Type) : Type := store V W -> outcome V A * store V W.

Definition ret {A} (a : A) : M A := fun s => (Ok a, s).

Definition raise {A} (e : exn V) : M A := fun s => (Raise e, s).

Definition bind {A B} (m : M A) (k : A -> M B) : M B :=
  fun s =>
    match m s with
    | (Ok a, s') => k a s'
    | (Raise e, s') => (Raise e, s')
    end.

Notation "x <- m ;; k" := (bind m (fun x => k))
  (at level 100, m at next level, right associativity) : py_scope.
Notation "m ;; k" := (bind m (fun _ => k))
  (at level 100, right associativity) : py_scope.

Local Open Scope py_scope.

(** *** Objects of the store *)

Definition new_tuple (t : list V) : M nat :=
  fun s => (Ok (length (tuples s)),
            Store (tuples s ++ [t]) (dicts s) (instances s) (env s)).

Definition get_tuple (r : nat) : M (list V) :=
  fun s => match tuples s !! r with
           | Some t => (Ok t, s)
           | None => (Raise SystemError, s)
           end.

Definition new_dict (d : dict V) : M nat :=
  fun s => (Ok (length (dicts s)),
            Store (tuples s) (dicts s ++ [d]) (instances s) (env s)).

Definition get_dict (r : nat) : M (dict V) :=
  fun s => match dicts s !! r with
           | Some d => (Ok d, s)
           | None => (Raise SystemError, s)
           end.

(** In-place change of the dict at [r]. *)
Definition put_dict (r : nat) (d : dict V) : M unit :=
  fun s => (Ok tt, Store (tuples s) (<[r:=d]> (dicts s)) (instances s) (env s)).

(** [object.__new__(cls)]: a new instance, slots unset. *)
Definition new_instance (cls : pyclass) : M nat :=
  fun s => (Ok (length (instances s)),
            Store (tuples s) (dicts s) (instances s ++ [Instance cls None None])
                  (env s)).

Definition get_instance (r : nat) : M instance :=
  fun s => match instances s !! r with
           | Some i => (Ok i, s)
           | None => (Raise SystemError, s)
           end.

Definition put_instance (r : nat) (i : instance) : M unit :=
  fun s => (Ok tt, Store (tuples s) (dicts s) (<[r:=i]> (instances s)) (env s)).

(** [self.args] and [self.kwargs], read and assigned. *)
Definition getattr_args (self : nat) : M nat :=
  i <- get_instance self ;;
  match inst_args i with
  | Some a => ret a
  | None => raise (AttributeError "args")
  end.

Definition getattr_kwargs (self : nat) : M nat :=
  i <- get_instance self ;;
  match inst_kwargs i with
  | Some k => ret k
  | None => raise (AttributeError "kwargs")
  end.

Definition setattr_args (self : nat) (a : nat) : M unit :=
  i <- get_instance self ;;
  put_instance self (Instance (inst_class i) (Some a) (inst_kwargs i)).

Definition setattr_kwargs (self : nat) (k : nat) : M unit :=
  i <- get_instance self ;;
  put_instance self (Instance (inst_class i) (inst_args i) (Some k)).

(** [t + args]: a new tuple. *)
Definition tuple_add (r : nat) (args : list V) : M nat :=
  t <- get_tuple r ;;
  new_tuple (t ++ args).

(** [d.copy()]: a new dict with the items of [d]. *)
Definition dict_copy (r : nat) : M nat :=
  d <- get_dict r ;;
  new_dict d.

(** [d.update(kwargs)], on the dict object itself. *)
Definition dict_update_at (r : nat) (kwargs : dict V) : M unit :=
  d <- get_dict r ;;
  put_dict r (dict_update d kwargs).

(** [type(v) is Arguments] *)
Definition type_is_Arguments (v : value V) : M bool :=
  match v with
  | VInstance r =>
      i <- get_instance r ;;
      ret (bool_decide (inst_class i = CArguments))
  | _ => ret false
  end.

(** [a == b] where both are references to tuples, as a container compares
    its items: identical objects are equal, others by content. *)
Definition tuple_ref_eq (a b : nat) : M bool :=
  if Nat.eqb a b then ret true
  else
    x <- get_tuple a ;;
    y <- get_tuple b ;;
    ret (tuple_eqb py_eq x y).

Definition dict_ref_eq (a b : nat) : M bool :=
  if Nat.eqb a b then ret true
  else
    x <- get_dict a ;;
    y <- get_dict b ;;
    ret (dict_eqb py_eq x y).

(** Entering the method [name], whose parameters [params] are given by
    position and which takes the other keywords in a double-star
    parameter: a keyword that names one of [params] raises [TypeError]
    before the body runs.  The wording of the message depends on the
    version of the interpreter; no statement below depends on it. *)
Definition bind_parameters (name : string) (params : list string)
    (kwargs : dict V) : M unit :=
  match keyword_clash params kwargs with
  | Some key =>
      raise (TypeError
        (name +:+ "() got multiple values for argument '" +:+ key +:+ "'"))
  | None => ret tt
  end.

(** *** class Arguments *)

Definition Arguments___init__ (self : nat) (args kwargs : nat)
    (magic : value V) : M unit :=
  if negb (value_is magic _yes_i_am_an_internal_call) then
    raise (TypeError
      ("Use the argskwargs() function to create instances of "
       +:+ "this class. (Did you read the docs at all?)"))
  else
    setattr_args self args ;;
    setattr_kwargs self kwargs.

(** The call [cls(args, kwargs, magic)]: [__new__], then [__init__]. *)
Definition instantiate (cls : pyclass) (args kwargs : nat)
    (magic : value V) : M nat :=
  self <- new_instance cls ;;
  Arguments___init__ self args kwargs magic ;;
  ret self.

Definition Arguments___repr__ (self : nat) : M string :=
  a <- getattr_args self ;;
  t <- get_tuple a ;;
  k <- getattr_kwargs self ;;
  d <- get_dict k ;;
  let chunks :=
    map py_repr t
    ++ map (fun nv => nv.1 +:+ "=" +:+ py_repr nv.2) (sorted_items d) in
  ret ("argskwargs(" +:+ String.concat ", " chunks +:+ ")").

Definition Arguments___str__ (self : nat) : M string :=
  Arguments___repr__ self.

(** The generator of [__iter__], run to its end: the values it yields. *)
Definition Arguments___iter__ (self : nat) : M (list (value V)) :=
  a <- getattr_args self ;;
  k <- getattr_kwargs self ;;
  ret [VTuple a; VDict k].

(** *** def argskwargs, with star parameters args and kwargs

    The call binds [args] to a new tuple and [kwargs] to a new dict. *)
Definition argskwargs (args : list V) (kwargs : dict V) : M (value V) :=
  a <- new_tuple args ;;
  k <- new_dict kwargs ;;
  self <- instantiate CArguments a k _yes_i_am_an_internal_call ;;
  ret (VInstance self).

(** *** Calls *)

(** A call of [f] with the arguments already unpacked.  A partial
    object calls its function with its own arguments first and its own
    keywords overridden by the call's ([functools.partial]). *)
Fixpoint call (f : pycallable F V) (args : list V) (kwargs : dict V)
    : M (value V) :=
  match f with
  | Fn g =>
      fun s =>
        let (r, w) := run g args kwargs (env s) in
        (match r with Ok v => Ok (VElem v) | Raise e => Raise e end,
         Store (tuples s) (dicts s) (instances s) w)
  | FArgskwargs => argskwargs args kwargs
  | Partial func pargs pkeywords =>
      call func (pargs ++ args) (dict_update pkeywords kwargs)
  end.

(** The call expression [f] of star [a] and double-star [k], where [a] refers to a tuple and [k]
    to a dict: both are read and unpacked, none is built. *)
Definition call_star (f : pycallable F V) (a k : nat) : M (value V) :=
  args <- get_tuple a ;;
  kwargs <- get_dict k ;;
  call f args kwargs.

(** [functools.partial] called on [func], star [a] and double-star [k] *)
Definition functools_partial (func : pycallable F V) (a k : nat)
    : M (pycallable F V) :=
  args <- get_tuple a ;;
  keywords <- get_dict k ;;
  ret (Partial func args keywords).

(** *** Methods of Arguments, continued *)

Definition Arguments_apply (self : nat) (callable : pycallable F V)
    (args : list V) (kwargs : dict V) : M (value V) :=
  bind_parameters "apply" ["self"; "callable"] kwargs ;;
  if negb (truthy args) && negb (truthy kwargs) then
    a <- getattr_args self ;;
    k <- getattr_kwargs self ;;
    call_star callable a k
  else
    k <- getattr_kwargs self ;;
    merged_kwargs <- dict_copy k ;;
    dict_update_at merged_kwargs kwargs ;;
    a <- getattr_args self ;;
    merged_args <- tuple_add a args ;;
    call_star callable merged_args merged_kwargs.

Definition Arguments___call__ := Arguments_apply.

Definition Arguments_partial (self : nat) (callable : pycallable F V)
    (args : list V) (kwargs : dict V) : M (pycallable F V) :=
  bind_parameters "partial" ["self"; "callable"] kwargs ;;
  k <- getattr_kwargs self ;;
  merged_kwargs <- dict_copy k ;;
  dict_update_at merged_kwargs kwargs ;;
  a <- getattr_args self ;;
  merged_args <- tuple_add a args ;;
  functools_partial callable merged_args merged_kwargs.

Definition Arguments_copy (self : nat) (args : list V) (kwargs : dict V)
    : M (value V) :=
  bind_parameters "copy" ["self"] kwargs ;;
  if negb (truthy args) && negb (truthy kwargs) then
    ret (VInstance self)
  else
    Arguments_apply self FArgskwargs args kwargs.

Definition Arguments___eq__ (self : nat) (other : value V) : M bool :=
  is_arguments <- type_is_Arguments other ;;
  if negb is_arguments then ret false
  else
    match other with
    | VInstance o =>
        sa <- getattr_args self ;;
        sk <- getattr_kwargs self ;;
        oa <- getattr_args o ;;
        ok <- getattr_kwargs o ;;
        same_args <- tuple_ref_eq sa oa ;;
        if same_args then dict_ref_eq sk ok else ret false
    | _ => ret false
    end.

Definition Arguments___ne__ (self : nat) (other : value V) : M bool :=
  b <- Arguments___eq__ self other ;;
  ret (negb b).

(** *** The operators

    [a == v] and [a != v] with [a] an instance.  When the right operand
    is an instance of a proper subclass of the class of the left one, its
    reflected method is tried first; [__eq__] and [__ne__] always return
    a boolean, so the method tried first gives the answer.  A derived
    class is a direct subclass of [Arguments] that inherits both
    methods. *)
Definition is_proper_subclass (c d : pyclass) : bool :=
  match c, d with
  | CSubclass _, CArguments => true
  | _, _ => false
  end.

Definition operator_eq (a : nat) (v : value V) : M bool :=
  match v with
  | VInstance o =>
      ia <- get_instance a ;;
      io <- get_instance o ;;
      if is_proper_subclass (inst_class io) (inst_class ia)
      then Arguments___eq__ o (VInstance a)
      else Arguments___eq__ a v
  | _ => Arguments___eq__ a v
  end.

Definition operator_ne (a : nat) (v : value V) : M bool :=
  match v with
  | VInstance o =>
      ia <- get_instance a ;;
      io <- get_instance o ;;
      if is_proper_subclass (inst_class io) (inst_class ia)
      then Arguments___ne__ o (VInstance a)
      else Arguments___ne__ a v
  | _ => Arguments___ne__ a v
  end.

Definition Arguments___copy__ (self : nat) : M (value V) :=
  ret (VInstance self).

Definition Arguments___deepcopy__ (self : nat) (memo : value V)
    : M (value V) :=
  ret (VInstance self).

Definition Arguments___getstate__ (self : nat) : M (nat * nat) :=
  a <- getattr_args self ;;
  k <- getattr_kwargs self ;;
  ret (a, k).

Definition Arguments___setstate__ (self : nat) (state : nat * nat) : M unit :=
  setattr_args self state.1 ;;
  setattr_kwargs self state.2.

(** *** Stores and bundles, as the statements below speak of them *)

(** [self] is an instance of exactly [Arguments] whose slots refer to the
    tuple [a] with items [P] and to the dict [k] with items [N]. *)
Definition is_bundle (s : store V W) (self a k : nat)
    (P : list V) (N : dict V) : Prop :=
  instances s !! self = Some (Instance CArguments (Some a) (Some k))
  /\ tuples s !! a = Some P
  /\ dicts s !! k = Some N.

(** Every object of [s] is in [s'], at the same place and with the same
    content: [s'] has at most new objects. *)
Definition store_preserved (s s' : store V W) : Prop :=
  tuples s `prefix_of` tuples s'
  /\ dicts s `prefix_of` dicts s'
  /\ instances s `prefix_of` instances s'.

(** Two dicts agree key by key, with values compared by [py_eq]. *)
Definition dict_equiv (a b : dict V) : Prop :=
  forall key,
    match dict_get key a, dict_get key b with
    | Some v, Some w => py_eq v w = true
    | None, None => True
    | _, _ => False
    end.

(** [v] is a value whose type is not [Arguments]: not an instance, or an
    instance of a derived class. *)
Definition other_type (s : store V W) (v : value V) : Prop :=
  match v with
  | VInstance r =>
      exists i, instances s !! r = Some i /\ inst_class i <> CArguments
  | _ => True
  end.

(** [v] is not a bundle of any kind: not an instance of [Arguments] and
    not an instance of a class derived from it. *)
Definition non_bundle (v : value V) : Prop :=
  match v with
  | VInstance _ => False
  | _ => True
  end.

(** [s] with one more tuple [t] and one more dict [d]. *)
Definition with_merged (s : store V W) (t : list V) (d : dict V)
    : store V W :=
  Store (tuples s ++ [t]) (dicts s ++ [d]) (instances s) (env s).

(** A computation that leaves the store as it found it. *)
Definition read_only {A} (m : M A) : Prop := forall s, (m s).2 = s.

(** ** Dictionaries: lookup after assignment and update *)

Lemma dict_get_setitem (key k : string) (v : V) (d : dict V) :
  dict_get key (dict_setitem k v d)
  = if String.eqb key k then Some v else dict_get key d.
Proof.
  induction d as [|[k' v'] d IH]; simpl.
  - reflexivity.
  - destruct (String.eqb_spec k k') as [->|Hk]; simpl.
    + destruct (String.eqb key k'); reflexivity.
    + rewrite IH. destruct (String.eqb_spec key k') as [->|]; [|reflexivity].
      destruct (String.eqb_spec k' k); congruence.
Qed.

Lemma dict_get_None (key : string) (d : dict V) :
  dict_get key d = None <-> key ∉ d.*1.
Proof using Type.
  induction d as [|[k' v'] d IH]; csimpl.
  - split; [intros _; apply not_elem_of_nil | reflexivity].
  - rewrite not_elem_of_cons.
    destruct (String.eqb_spec key k') as [->|Hne].
    + split; [discriminate | intros [Hc _]; by destruct Hc].
    + rewrite IH. split; [intros H; by split | intros [_ H]; exact H].
Qed.

Lemma dict_get_Some (key : string) (v : V) (d : dict V) :
  dict_wf d -> dict_get key d = Some v <-> (key, v) ∈ d.
Proof.
  unfold dict_wf. induction d as [|[k' v'] d IH]; csimpl; intros Hwf.
  - split; [discriminate | intros H; inversion H].
  - apply NoDup_cons in Hwf as [Hk' Hwf]. rewrite elem_of_cons.
    destruct (String.eqb_spec key k') as [->|Hne].
    + split; [intros [= ->]; by left|].
      intros [[= ->]|Hin]; [reflexivity|].
      exfalso. apply Hk'. apply (list_elem_of_fmap_2 fst) in Hin. exact Hin.
    + rewrite IH by assumption. split; [by right|].
      intros [[= -> ->]|Hin]; [congruence | assumption].
Qed.

Lemma dict_setitem_keys (k : string) (v : V) (d : dict V) :
  (dict_setitem k v d).*1 = if bool_decide (k ∈ d.*1) then d.*1 else d.*1 ++ [k].
Proof using Type.
  induction d as [|[k' v'] d IH]; csimpl.
  - reflexivity.
  - destruct (String.eqb_spec k k') as [->|Hne]; csimpl.
    + rewrite bool_decide_eq_true_2 by (by left). reflexivity.
    + rewrite IH. destruct (decide (k ∈ d.*1)) as [Hin|Hin].
      * rewrite !bool_decide_eq_true_2; [reflexivity | by right | assumption].
      * rewrite !bool_decide_eq_false_2; [reflexivity | | assumption].
        rewrite not_elem_of_cons. by split.
Qed.

Lemma dict_setitem_wf (k : string) (v : V) (d : dict V) :
  dict_wf d -> dict_wf (dict_setitem k v d).
Proof.
  unfold dict_wf. intros Hwf. rewrite dict_setitem_keys.
  case_bool_decide as Hin; [assumption|].
  apply NoDup_app. split; [assumption|]. split; [|apply NoDup_singleton].
  intros x Hx Hx'. apply list_elem_of_singleton in Hx' as ->. contradiction.
Qed.

Lemma dict_update_wf (d other : dict V) :
  dict_wf d -> dict_wf (dict_update d other).
Proof.
  unfold dict_update. revert d.
  induction other as [|[k v] other IH]; csimpl; intros d Hwf; [assumption|].
  apply IH, dict_setitem_wf, Hwf.
Qed.

(** The merge of [update]: a key of [other] gets the value of [other], any
    other key keeps the value of [d]. *)
Lemma dict_get_update (key : string) (d other : dict V) :
  dict_wf other ->
  dict_get key (dict_update d other)
  = match dict_get key other with
    | Some v => Some v
    | None => dict_get key d
    end.
Proof.
  unfold dict_update, dict_wf. revert d.
  induction other as [|[k v] other IH]; csimpl; intros d Hwf; [reflexivity|].
  apply NoDup_cons in Hwf as [Hk Hwf].
  rewrite IH by assumption. rewrite dict_get_setitem.
  destruct (String.eqb_spec key k) as [->|Hne]; [|reflexivity].
  apply dict_get_None in Hk. rewrite Hk. reflexivity.
Qed.

Lemma dict_update_nil (d : dict V) : dict_update d [] = d.
Proof. reflexivity. Qed.

(** ** Equality of tuples and of dicts *)

Lemma tuple_eqb_Forall2 (a b : list V) :
  tuple_eqb py_eq a b = true <-> Forall2 (fun x y => py_eq x y = true) a b.
Proof.
  revert b. induction a as [|x a IH]; intros [|y b]; simpl.
  - split; [constructor | reflexivity].
  - split; [discriminate | intros H; inversion H].
  - split; [discriminate | intros H; inversion H].
  - rewrite andb_true_iff, IH. split.
    + intros [Hxy Hab]. by constructor.
    + intros H. inversion H; subst. by split.
Qed.

Lemma dict_keys_elem_of (key : string) (d : dict V) :
  key ∈ d.*1 <-> exists v, dict_get key d = Some v.
Proof.
  destruct (dict_get key d) as [v|] eqn:Hget.
  - split; [eauto|]. intros _.
    destruct (decide (key ∈ d.*1)) as [|Hn]; [assumption|].
    apply dict_get_None in Hn. congruence.
  - apply dict_get_None in Hget. split; [contradiction | intros [? [=]]].
Qed.

Lemma dict_eqb_items (a b : dict V) :
  dict_eqb py_eq a b = true <->
  length a = length b
  /\ forall k v, (k, v) ∈ a ->
       exists w, dict_get k b = Some w /\ py_eq v w = true.
Proof.
  unfold dict_eqb. rewrite andb_true_iff, Nat.eqb_eq, forallb_forall.
  split; intros [Hlen Hall]; (split; [assumption|]).
  - intros k v Hin. apply list_elem_of_In in Hin. specialize (Hall _ Hin).
    simpl in Hall. destruct (dict_get k b) as [w|]; [eauto | discriminate].
  - intros [k v] Hin. apply list_elem_of_In in Hin. simpl.
    destruct (Hall _ _ Hin) as (w & -> & Hw). exact Hw.
Qed.

(** On dicts with unique keys, [==] is agreement key by key. *)
Lemma dict_eqb_equiv (a b : dict V) :
  dict_wf a -> dict_wf b ->
  dict_eqb py_eq a b = true <-> dict_equiv a b.
Proof.
  intros Ha Hb. rewrite dict_eqb_items. split.
  - intros [Hlen Hall].
    assert (Hsub : forall k, k ∈ a.*1 -> k ∈ b.*1).
    { intros k Hk. apply dict_keys_elem_of in Hk as [v Hv].
      apply dict_get_Some in Hv; [|assumption].
      destruct (Hall _ _ Hv) as (w & Hw & _).
      apply dict_keys_elem_of. eauto. }
    assert (Hperm : a.*1 ≡ₚ b.*1).
    { apply submseteq_length_Permutation.
      - by apply NoDup_submseteq.
      - rewrite !length_fmap. lia. }
    intros key. destruct (dict_get key a) as [v|] eqn:Hga.
    + apply dict_get_Some in Hga; [|assumption].
      destruct (Hall _ _ Hga) as (w & -> & Hw). exact Hw.
    + apply dict_get_None in Hga. rewrite Hperm in Hga.
      apply dict_get_None in Hga. rewrite Hga. exact I.
  - intros Heq.
    assert (Hkeys : forall k, k ∈ a.*1 <-> k ∈ b.*1).
    { intros k. rewrite !dict_keys_elem_of. specialize (Heq k).
      destruct (dict_get k a), (dict_get k b); split; intros [? ?];
        try discriminate; try contradiction; eauto. }
    split.
    + rewrite <- (length_fmap fst a), <- (length_fmap fst b).
      apply Permutation_length. by apply NoDup_Permutation.
    + intros k v Hin. apply dict_get_Some in Hin; [|assumption].
      specialize (Heq k). rewrite Hin in Heq.
      destruct (dict_get k b) as [w|]; [eauto | contradiction].
Qed.

(** ** Sorting the items of a dict *)

#[local] Instance item_le_trans : Transitive (@item_le V).
Proof. intros x y z. unfold item_le. apply transitivity. Qed.

#[local] Instance item_le_total : Total (@item_le V).
Proof. intros x y. unfold item_le. apply total, _. Qed.

Lemma sorted_items_Permutation (d : dict V) : sorted_items d ≡ₚ d.
Proof. apply merge_sort_Permutation. Qed.

Lemma sorted_items_StronglySorted (d : dict V) :
  StronglySorted item_le (sorted_items d).
Proof. apply StronglySorted_merge_sort; apply _. Qed.

Lemma sorted_items_keys (d : dict V) :
  StronglySorted String.le (sorted_items d).*1.
Proof.
  apply (StronglySorted_fmap fst item_le); [|apply sorted_items_StronglySorted].
  intros x y H. exact H.
Qed.

Lemma dict_wf_functional (d : dict V) (k : string) (v w : V) :
  dict_wf d -> (k, v) ∈ d -> (k, w) ∈ d -> v = w.
Proof.
  intros Hwf Hv Hw.
  apply dict_get_Some in Hv; [|assumption].
  apply dict_get_Some in Hw; [|assumption]. congruence.
Qed.

(** The sorted items do not depend on the order of insertion. *)
Lemma sorted_items_order (d d' : dict V) :
  dict_wf d -> d' ≡ₚ d -> sorted_items d' = sorted_items d.
Proof.
  intros Hwf Hperm.
  apply (StronglySorted_unique_strong item_le);
    [|apply sorted_items_StronglySorted..|].
  - intros [k1 v1] [k2 v2] H1 H2 H12 H21. unfold item_le in *. simpl in *.
    assert (k1 = k2) as -> by (by apply (anti_symm String.le)).
    f_equal. apply (dict_wf_functional d k2); [assumption|..].
    + rewrite <- Hperm, <- (sorted_items_Permutation d'). exact H1.
    + rewrite <- (sorted_items_Permutation d). exact H2.
  - rewrite !sorted_items_Permutation. exact Hperm.
Qed.

(** ** Running the primitives *)

Lemma bind_Ok {A B} (m : M A) (k : A -> M B) s a s' :
  m s = (Ok a, s') -> bind m k s = k a s'.
Proof. unfold bind. intros ->. reflexivity. Qed.

Lemma bind_Raise {A B} (m : M A) (k : A -> M B) s e s' :
  m s = (Raise e, s') -> bind m k s = (Raise e, s').
Proof. unfold bind. intros ->. reflexivity. Qed.

(** ** Binding the keywords *)

Lemma keyword_clash_Some (params : list string) (kwargs : dict V) key :
  keyword_clash params kwargs = Some key ->
  key ∈ params /\ key ∈ kwargs.*1.
Proof using Type.
  unfold keyword_clash.
  destruct (List.find _ kwargs) as [kv|] eqn:Hf; [|discriminate].
  intros [= <-]. apply find_some in Hf as [Hin Hp].
  apply bool_decide_eq_true in Hp. split; [exact Hp|].
  apply list_elem_of_In in Hin. by apply (list_elem_of_fmap_2 fst) in Hin.
Qed.

Lemma keyword_clash_None (params : list string) (kwargs : dict V) key :
  keyword_clash params kwargs = None ->
  key ∈ kwargs.*1 -> key ∉ params.
Proof using Type.
  unfold keyword_clash.
  destruct (List.find _ kwargs) as [kv|] eqn:Hf; [discriminate|].
  intros _ Hin. apply list_elem_of_fmap in Hin as ([k v] & -> & Hin).
  apply list_elem_of_In in Hin.
  pose proof (find_none _ _ Hf _ Hin) as Hp. simpl in Hp.
  by apply bool_decide_eq_false in Hp.
Qed.

Lemma binds_true (params : list string) (kwargs : dict V) :
  binds params kwargs = true <->
  forall key, key ∈ kwargs.*1 -> key ∉ params.
Proof using Type.
  unfold binds. destruct (keyword_clash params kwargs) as [key|] eqn:Hc.
  - apply keyword_clash_Some in Hc as [Hp Hk].
    split; [discriminate|]. intros H. by destruct (H key Hk).
  - split; [|reflexivity]. intros _ key. by apply keyword_clash_None.
Qed.

Lemma binds_false (params : list string) (kwargs : dict V) key :
  key ∈ params -> key ∈ kwargs.*1 -> binds params kwargs = false.
Proof using Type.
  intros Hp Hk. destruct (binds params kwargs) eqn:Hb; [|reflexivity].
  by destruct (proj1 (binds_true params kwargs) Hb key Hk).
Qed.

Lemma binds_fewer (params params' : list string) (kwargs : dict V) :
  (forall key, key ∈ params' -> key ∈ params) ->
  binds params kwargs = true -> binds params' kwargs = true.
Proof using Type.
  rewrite !binds_true. intros Hsub H key Hk Hp. apply (H key Hk), Hsub, Hp.
Qed.

Lemma dict_update_keys (d m : dict V) key :
  key ∈ (dict_update d m).*1 -> key ∈ d.*1 \/ key ∈ m.*1.
Proof using Type.
  unfold dict_update. revert d.
  induction m as [|[k v] m IH]; csimpl; intros d Hin; [by left|].
  apply IH in Hin as [Hin|Hin]; [|right; by right].
  rewrite dict_setitem_keys in Hin. case_bool_decide; [by left|].
  apply elem_of_app in Hin as [Hin|Hin]; [by left|].
  apply list_elem_of_singleton in Hin as ->. right. by left.
Qed.

Lemma binds_update (params : list string) (d m : dict V) :
  binds params d = true -> binds params m = true ->
  binds params (dict_update d m) = true.
Proof using Type.
  rewrite !binds_true. intros Hd Hm key Hin.
  apply dict_update_keys in Hin as [Hin|Hin]; [by apply Hd | by apply Hm].
Qed.

Lemma bind_parameters_Ok name (params : list string) (kwargs : dict V) s :
  binds params kwargs = true ->
  bind_parameters name params kwargs s = (Ok tt, s).
Proof.
  unfold binds, bind_parameters.
  by destruct (keyword_clash params kwargs).
Qed.

Lemma bind_parameters_Raise name (params : list string) (kwargs : dict V) s :
  binds params kwargs = false ->
  exists msg, bind_parameters name params kwargs s = (Raise (TypeError msg), s).
Proof.
  unfold binds, bind_parameters.
  destruct (keyword_clash params kwargs); [eauto | discriminate].
Qed.

Lemma lookup_snoc_last {A} (l : list A) (x : A) :
  (l ++ [x]) !! length l = Some x.
Proof. by apply list_lookup_middle. Qed.

Lemma insert_snoc_last {A} (l : list A) (x y : A) :
  <[length l := y]> (l ++ [x]) = l ++ [y].
Proof.
  rewrite insert_app_r_alt by lia. rewrite Nat.sub_diag. reflexivity.
Qed.

Lemma getattr_args_Ok s self c a k :
  instances s !! self = Some (Instance c (Some a) k) ->
  getattr_args self s = (Ok a, s).
Proof. intros H. unfold getattr_args, bind, get_instance. by rewrite H. Qed.

Lemma getattr_kwargs_Ok s self c a k :
  instances s !! self = Some (Instance c a (Some k)) ->
  getattr_kwargs self s = (Ok k, s).
Proof. intros H. unfold getattr_kwargs, bind, get_instance. by rewrite H. Qed.

Lemma get_tuple_Ok s a P : tuples s !! a = Some P -> get_tuple a s = (Ok P, s).
Proof. intros H. unfold get_tuple. by rewrite H. Qed.

Lemma get_dict_Ok s k N : dicts s !! k = Some N -> get_dict k s = (Ok N, s).
Proof. intros H. unfold get_dict. by rewrite H. Qed.

Lemma call_star_Ok f s a k P N :
  tuples s !! a = Some P -> dicts s !! k = Some N ->
  call_star f a k s = call f P N s.
Proof.
  intros Ha Hk. unfold call_star.
  rewrite (bind_Ok _ _ _ _ _ (get_tuple_Ok _ _ _ Ha)).
  rewrite (bind_Ok _ _ _ _ _ (get_dict_Ok _ _ _ Hk)). reflexivity.
Qed.

(** The factory returns a new instance whose slots refer to a new tuple
    and a new dict holding the arguments of the call. *)
Lemma argskwargs_run (P : list V) (N : dict V) (s : store V W) :
  argskwargs P N s
  = (Ok (VInstance (length (instances s))),
     Store (tuples s ++ [P]) (dicts s ++ [N])
           (instances s
            ++ [Instance CArguments (Some (length (tuples s)))
                         (Some (length (dicts s)))])
           (env s)).
Proof.
  unfold argskwargs, instantiate, Arguments___init__, new_tuple, new_dict,
    new_instance, setattr_args, setattr_kwargs, get_instance, put_instance,
    bind, ret. simpl.
  rewrite lookup_snoc_last. simpl. rewrite insert_snoc_last.
  rewrite lookup_snoc_last. simpl. rewrite insert_snoc_last. reflexivity.
Qed.

(** The merging steps shared by [apply] and [partial]. *)
Lemma merge_steps {A} (s : store V W) self a k P N
    (args : list V) (kwargs : dict V) (cont : nat -> nat -> M A) :
  is_bundle s self a k P N ->
  (k0 <- getattr_kwargs self ;;
   merged_kwargs <- dict_copy k0 ;;
   dict_update_at merged_kwargs kwargs ;;
   a0 <- getattr_args self ;;
   merged_args <- tuple_add a0 args ;;
   cont merged_args merged_kwargs) s
  = cont (length (tuples s)) (length (dicts s))
         (with_merged s (P ++ args) (dict_update N kwargs)).
Proof.
  intros (Hi & Ha & Hk).
  rewrite (bind_Ok _ _ _ _ _ (getattr_kwargs_Ok _ _ _ _ _ Hi)).
  unfold dict_copy at 1.
  unfold bind at 1. unfold bind at 1. rewrite (get_dict_Ok _ _ _ Hk).
  unfold new_dict at 1. unfold bind at 1, dict_update_at at 1.
  unfold bind at 1, get_dict at 1. cbn [dicts]. rewrite lookup_snoc_last.
  unfold put_dict at 1. cbn [dicts tuples instances env].
  rewrite insert_snoc_last.
  unfold bind at 1, getattr_args at 1, bind at 1, get_instance at 1.
  cbn [dicts tuples instances env]. rewrite Hi. cbn [inst_args ret].
  unfold bind at 1, tuple_add at 1, bind at 1, get_tuple at 1.
  cbn [dicts tuples instances env]. rewrite Ha.
  unfold new_tuple at 1. cbn [dicts tuples instances env]. reflexivity.
Qed.

Lemma with_merged_lookup (s : store V W) t d :
  tuples (with_merged s t d) !! length (tuples s) = Some t
  /\ dicts (with_merged s t d) !! length (dicts s) = Some d.
Proof. unfold with_merged. simpl. by rewrite !lookup_snoc_last. Qed.

(** ** Stores only grow *)

Lemma store_preserved_refl (s : store V W) : store_preserved s s.
Proof. repeat split; reflexivity. Qed.

Lemma store_preserved_trans (s1 s2 s3 : store V W) :
  store_preserved s1 s2 -> store_preserved s2 s3 -> store_preserved s1 s3.
Proof.
  intros (? & ? & ?) (? & ? & ?). repeat split; etransitivity; eassumption.
Qed.

Lemma store_preserved_with_merged (s : store V W) t d :
  store_preserved s (with_merged s t d).
Proof.
  repeat split; simpl; try reflexivity; apply prefix_app_r; reflexivity.
Qed.

Lemma is_bundle_preserved (s s' : store V W) self a k P N :
  store_preserved s s' -> is_bundle s self a k P N -> is_bundle s' self a k P N.
Proof.
  intros (Ht & Hd & Hi) (? & ? & ?).
  repeat split; eapply prefix_lookup_Some; eassumption.
Qed.

Lemma call_preserved (f : pycallable F V) args kwargs (s : store V W) :
  store_preserved s (call f args kwargs s).2.
Proof.
  revert args kwargs. induction f as [g| |func IH pargs pkw]; intros args kwargs.
  - simpl. destruct (run g args kwargs (env s)) as [r w]. simpl.
    repeat split; reflexivity.
  - simpl. rewrite argskwargs_run. simpl.
    repeat split; simpl; apply prefix_app_r; reflexivity.
  - simpl. apply IH.
Qed.

(** What a call returns and what it does to the state of the callables
    depends on that state and on the number of instances only. *)
Lemma call_outcome (f : pycallable F V) args kwargs (s1 s2 : store V W) :
  env s1 = env s2 ->
  length (instances s1) = length (instances s2) ->
  (call f args kwargs s1).1 = (call f args kwargs s2).1
  /\ env (call f args kwargs s1).2 = env (call f args kwargs s2).2.
Proof.
  revert args kwargs. induction f as [g| |func IH pargs pkw];
    intros args kwargs Henv Hlen.
  - simpl. rewrite Henv.
    destruct (run g args kwargs (env s2)) as [r w]. by simpl.
  - simpl. rewrite !argskwargs_run. simpl. by rewrite Hlen, Henv.
  - simpl. by apply IH.
Qed.

(** ** Computations that only read *)

Lemma read_only_ret {A} (a : A) : read_only (ret a).
Proof. intros s. reflexivity. Qed.

Lemma read_only_raise {A} (e : exn V) : read_only (@raise A e).
Proof. intros s. reflexivity. Qed.

Lemma read_only_bind {A B} (m : M A) (k : A -> M B) :
  read_only m -> (forall a, read_only (k a)) -> read_only (bind m k).
Proof.
  intros Hm Hk s. unfold bind. specialize (Hm s).
  destruct (m s) as [[a|e] s']; simpl in Hm; subst; [apply Hk | reflexivity].
Qed.

Lemma read_only_get_tuple r : read_only (get_tuple r).
Proof. intros s. unfold get_tuple. by destruct (tuples s !! r). Qed.

Lemma read_only_get_dict r : read_only (get_dict r).
Proof. intros s. unfold get_dict. by destruct (dicts s !! r). Qed.

Lemma read_only_get_instance r : read_only (get_instance r).
Proof. intros s. unfold get_instance. by destruct (instances s !! r). Qed.

Lemma read_only_getattr_args self : read_only (getattr_args self).
Proof.
  apply read_only_bind; [apply read_only_get_instance|].
  intros i. destruct (inst_args i); [apply read_only_ret | apply read_only_raise].
Qed.

Lemma read_only_getattr_kwargs self : read_only (getattr_kwargs self).
Proof.
  apply read_only_bind; [apply read_only_get_instance|].
  intros i. destruct (inst_kwargs i); [apply read_only_ret | apply read_only_raise].
Qed.

Lemma read_only_tuple_ref_eq a b : read_only (tuple_ref_eq a b).
Proof.
  unfold tuple_ref_eq. destruct (Nat.eqb a b); [apply read_only_ret|].
  repeat (apply read_only_bind; [apply read_only_get_tuple | intros ?]).
  apply read_only_ret.
Qed.

Lemma read_only_dict_ref_eq a b : read_only (dict_ref_eq a b).
Proof.
  unfold dict_ref_eq. destruct (Nat.eqb a b); [apply read_only_ret|].
  repeat (apply read_only_bind; [apply read_only_get_dict | intros ?]).
  apply read_only_ret.
Qed.

Lemma read_only_type_is_Arguments v : read_only (type_is_Arguments v).
Proof.
  destruct v; simpl; try apply read_only_ret.
  apply read_only_bind; [apply read_only_get_instance | intros ?].
  apply read_only_ret.
Qed.

Lemma read_only_eq self other : read_only (Arguments___eq__ self other).
Proof.
  unfold Arguments___eq__.
  apply read_only_bind; [apply read_only_type_is_Arguments | intros b].
  destruct (negb b); [apply read_only_ret|].
  destruct other; try apply read_only_ret.
  apply read_only_bind; [apply read_only_getattr_args | intros ?].
  apply read_only_bind; [apply read_only_getattr_kwargs | intros ?].
  apply read_only_bind; [apply read_only_getattr_args | intros ?].
  apply read_only_bind; [apply read_only_getattr_kwargs | intros ?].
  apply read_only_bind; [apply read_only_tuple_ref_eq | intros same].
  destruct same; [apply read_only_dict_ref_eq | apply read_only_ret].
Qed.

Lemma read_only_repr self : read_only (Arguments___repr__ self).
Proof.
  unfold Arguments___repr__.
  apply read_only_bind; [apply read_only_getattr_args | intros ?].
  apply read_only_bind; [apply read_only_get_tuple | intros ?].
  apply read_only_bind; [apply read_only_getattr_kwargs | intros ?].
  apply read_only_bind; [apply read_only_get_dict | intros ?].
  apply read_only_ret.
Qed.

Lemma read_only_iter self : read_only (Arguments___iter__ self).
Proof.
  unfold Arguments___iter__.
  apply read_only_bind; [apply read_only_getattr_args | intros ?].
  apply read_only_bind; [apply read_only_getattr_kwargs | intros ?].
  apply read_only_ret.
Qed.

(** ** Running the methods on a bundle *)

Lemma no_extras_inv (args : list V) (kwargs : dict V) :
  negb (truthy args) && negb (truthy kwargs) = true ->
  args = [] /\ kwargs = [].
Proof. destruct args, kwargs; simpl; intros H; try discriminate; done. Qed.

Lemma apply_run (s : store V W) self a k P N (f : pycallable F V) args kwargs :
  is_bundle s self a k P N ->
  binds ["self"; "callable"] kwargs = true ->
  Arguments_apply self f args kwargs s
  = call f (P ++ args) (dict_update N kwargs)
      (if negb (truthy args) && negb (truthy kwargs) then s
       else with_merged s (P ++ args) (dict_update N kwargs)).
Proof.
  intros Hb Hbind. unfold Arguments_apply.
  rewrite (bind_Ok _ _ _ _ _ (bind_parameters_Ok _ _ _ _ Hbind)).
  destruct (negb (truthy args) && negb (truthy kwargs)) eqn:Hno.
  - apply no_extras_inv in Hno as [-> ->]. destruct Hb as (Hi & Ha & Hk).
    rewrite (bind_Ok _ _ _ _ _ (getattr_args_Ok _ _ _ _ _ Hi)).
    rewrite (bind_Ok _ _ _ _ _ (getattr_kwargs_Ok _ _ _ _ _ Hi)).
    rewrite (call_star_Ok _ _ _ _ _ _ Ha Hk), app_nil_r. reflexivity.
  - rewrite (merge_steps s self a k P N args kwargs (call_star f) Hb).
    destruct (with_merged_lookup s (P ++ args) (dict_update N kwargs)).
    by apply call_star_Ok.
Qed.

Lemma partial_run (s : store V W) self a k P N (f : pycallable F V) args kwargs :
  is_bundle s self a k P N ->
  binds ["self"; "callable"] kwargs = true ->
  Arguments_partial self f args kwargs s
  = (Ok (Partial f (P ++ args) (dict_update N kwargs)),
     with_merged s (P ++ args) (dict_update N kwargs)).
Proof.
  intros Hb Hbind. unfold Arguments_partial.
  rewrite (bind_Ok _ _ _ _ _ (bind_parameters_Ok _ _ _ _ Hbind)).
  rewrite (merge_steps s self a k P N args kwargs (functools_partial f) Hb).
  destruct (with_merged_lookup s (P ++ args) (dict_update N kwargs))
    as [Ht Hd].
  unfold functools_partial.
  rewrite (bind_Ok _ _ _ _ _ (get_tuple_Ok _ _ _ Ht)).
  rewrite (bind_Ok _ _ _ _ _ (get_dict_Ok _ _ _ Hd)). reflexivity.
Qed.

Lemma apply_raises (s : store V W) self (f : pycallable F V) args kwargs :
  binds ["self"; "callable"] kwargs = false ->
  exists msg,
    Arguments_apply self f args kwargs s = (Raise (TypeError msg), s).
Proof.
  intros Hbind. unfold Arguments_apply.
  destruct (bind_parameters_Raise "apply" _ _ s Hbind) as (msg & Hr).
  exists msg. by rewrite (bind_Raise _ _ _ _ _ Hr).
Qed.

Lemma partial_raises (s : store V W) self (f : pycallable F V) args kwargs :
  binds ["self"; "callable"] kwargs = false ->
  exists msg,
    Arguments_partial self f args kwargs s = (Raise (TypeError msg), s).
Proof.
  intros Hbind. unfold Arguments_partial.
  destruct (bind_parameters_Raise "partial" _ _ s Hbind) as (msg & Hr).
  exists msg. by rewrite (bind_Raise _ _ _ _ _ Hr).
Qed.

Lemma binds_nonempty (params : list string) (kwargs : dict V) :
  binds params kwargs = false -> truthy kwargs = true.
Proof using Type. by destruct kwargs. Qed.

Lemma copy_raises (s : store V W) self args kwargs :
  binds ["self"; "callable"] kwargs = false ->
  exists msg, Arguments_copy self args kwargs s = (Raise (TypeError msg), s).
Proof.
  intros Hbind. unfold Arguments_copy.
  destruct (binds ["self"] kwargs) eqn:Hself.
  - rewrite (bind_Ok _ _ _ _ _ (bind_parameters_Ok _ _ _ _ Hself)).
    rewrite (binds_nonempty _ _ Hbind), andb_false_r.
    by apply apply_raises.
  - destruct (bind_parameters_Raise "copy" _ _ s Hself) as (msg & Hr).
    exists msg. by rewrite (bind_Raise _ _ _ _ _ Hr).
Qed.

Lemma apply_store (s : store V W) self a k P N f args kwargs :
  is_bundle s self a k P N ->
  store_preserved s (Arguments_apply self f args kwargs s).2.
Proof.
  intros Hb. destruct (binds ["self"; "callable"] kwargs) eqn:Hbind.
  - rewrite (apply_run s self a k P N f args kwargs Hb Hbind).
    eapply store_preserved_trans; [|apply call_preserved].
    destruct (negb (truthy args) && negb (truthy kwargs));
      [apply store_preserved_refl | apply store_preserved_with_merged].
  - destruct (apply_raises s self f args kwargs Hbind) as (msg & ->).
    apply store_preserved_refl.
Qed.

Lemma repr_run (s : store V W) self a k P N :
  is_bundle s self a k P N ->
  Arguments___repr__ self s
  = (Ok ("argskwargs("
         +:+ String.concat ", "
               (map py_repr P
                ++ map (fun nv => nv.1 +:+ "=" +:+ py_repr nv.2)
                       (sorted_items N))
         +:+ ")"), s).
Proof.
  intros (Hi & Ha & Hk). unfold Arguments___repr__.
  rewrite (bind_Ok _ _ _ _ _ (getattr_args_Ok _ _ _ _ _ Hi)).
  rewrite (bind_Ok _ _ _ _ _ (get_tuple_Ok _ _ _ Ha)).
  rewrite (bind_Ok _ _ _ _ _ (getattr_kwargs_Ok _ _ _ _ _ Hi)).
  rewrite (bind_Ok _ _ _ _ _ (get_dict_Ok _ _ _ Hk)). reflexivity.
Qed.

Lemma type_is_Arguments_instance (s : store V W) o i :
  instances s !! o = Some i ->
  type_is_Arguments (VInstance o) s
  = (Ok (bool_decide (inst_class i = CArguments)), s).
Proof.
  intros H. simpl. unfold bind, get_instance. by rewrite H.
Qed.

Lemma eq_other_type (s : store V W) self (v : value V) :
  other_type s v -> Arguments___eq__ self v s = (Ok false, s).
Proof.
  intros Hv. unfold Arguments___eq__. destruct v as [e|n|r|r|r]; try reflexivity.
  destruct Hv as (i & Hi & Hc).
  rewrite (bind_Ok _ _ _ _ _ (type_is_Arguments_instance _ _ _ Hi)).
  by rewrite bool_decide_eq_false_2.
Qed.

Lemma tuple_eqb_refl (l : list V) :
  (forall x, py_eq x x = true) -> tuple_eqb py_eq l l = true.
Proof. intros Hr. induction l; simpl; [reflexivity|]. by rewrite Hr, IHl. Qed.

Lemma dict_eqb_refl (d : dict V) :
  (forall x, py_eq x x = true) -> dict_wf d -> dict_eqb py_eq d d = true.
Proof.
  intros Hr Hwf. apply dict_eqb_equiv; [assumption..|].
  intros key. destruct (dict_get key d); [apply Hr | exact I].
Qed.

Lemma eq_run (s : store V W) a aa ak Pa Na b ba bk Pb Nb :
  (forall x, py_eq x x = true) ->
  is_bundle s a aa ak Pa Na -> is_bundle s b ba bk Pb Nb ->
  dict_wf Na -> dict_wf Nb ->
  Arguments___eq__ a (VInstance b) s
  = (Ok (tuple_eqb py_eq Pa Pb && dict_eqb py_eq Na Nb), s).
Proof.
  intros Hr (Hia & Hta & Hda) (Hib & Htb & Hdb) Hwa Hwb.
  unfold Arguments___eq__.
  rewrite (bind_Ok _ _ _ _ _ (type_is_Arguments_instance _ _ _ Hib)).
  rewrite bool_decide_eq_true_2 by reflexivity. cbn [negb].
  rewrite (bind_Ok _ _ _ _ _ (getattr_args_Ok _ _ _ _ _ Hia)).
  rewrite (bind_Ok _ _ _ _ _ (getattr_kwargs_Ok _ _ _ _ _ Hia)).
  rewrite (bind_Ok _ _ _ _ _ (getattr_args_Ok _ _ _ _ _ Hib)).
  rewrite (bind_Ok _ _ _ _ _ (getattr_kwargs_Ok _ _ _ _ _ Hib)).
  assert (Ht : tuple_ref_eq aa ba s = (Ok (tuple_eqb py_eq Pa Pb), s)).
  { unfold tuple_ref_eq. destruct (Nat.eqb_spec aa ba) as [->|_].
    - assert (Pa = Pb) as -> by congruence. by rewrite tuple_eqb_refl.
    - rewrite (bind_Ok _ _ _ _ _ (get_tuple_Ok _ _ _ Hta)).
      by rewrite (bind_Ok _ _ _ _ _ (get_tuple_Ok _ _ _ Htb)). }
  assert (Hd : dict_ref_eq ak bk s = (Ok (dict_eqb py_eq Na Nb), s)).
  { unfold dict_ref_eq. destruct (Nat.eqb_spec ak bk) as [->|_].
    - assert (Na = Nb) as -> by congruence. by rewrite dict_eqb_refl.
    - rewrite (bind_Ok _ _ _ _ _ (get_dict_Ok _ _ _ Hda)).
      by rewrite (bind_Ok _ _ _ _ _ (get_dict_Ok _ _ _ Hdb)). }
  rewrite (bind_Ok _ _ _ _ _ Ht).
  destruct (tuple_eqb py_eq Pa Pb); [exact Hd | reflexivity].
Qed.

Lemma value_is_sentinel (magic : value V) :
  value_is magic _yes_i_am_an_internal_call = true
  <-> magic = _yes_i_am_an_internal_call.
Proof.
  unfold _yes_i_am_an_internal_call.
  destruct magic as [e|n|r|r|r]; simpl; try (split; [discriminate|congruence]).
  rewrite Nat.eqb_eq. split; congruence.
Qed.

Lemma instantiate_run (cls : pyclass) (a k : nat) (magic : value V)
    (s : store V W) :
  instantiate cls a k magic s
  = if value_is magic _yes_i_am_an_internal_call then
      (Ok (length (instances s)),
       Store (tuples s) (dicts s)
             (instances s ++ [Instance cls (Some a) (Some k)]) (env s))
    else
      (Raise (TypeError
         ("Use the argskwargs() function to create instances of "
          +:+ "this class. (Did you read the docs at all?)")),
       Store (tuples s) (dicts s)
             (instances s ++ [Instance cls None None]) (env s)).
Proof.
  unfold instantiate, Arguments___init__, new_instance, bind at 1.
  destruct (value_is magic _yes_i_am_an_internal_call); cbn [negb].
  - unfold setattr_args, setattr_kwargs, get_instance, put_instance, bind, ret.
    simpl. rewrite lookup_snoc_last. simpl. rewrite insert_snoc_last.
    rewrite lookup_snoc_last. simpl. rewrite insert_snoc_last. reflexivity.
  - reflexivity.
Qed.

Lemma eq_same_containers (s : store V W) self c a k b :
  instances s !! self = Some (Instance c (Some a) (Some k)) ->
  instances s !! b = Some (Instance CArguments (Some a) (Some k)) ->
  Arguments___eq__ self (VInstance b) s = (Ok true, s).
Proof.
  intros Hia Hib. unfold Arguments___eq__.
  rewrite (bind_Ok _ _ _ _ _ (type_is_Arguments_instance _ _ _ Hib)).
  rewrite bool_decide_eq_true_2 by reflexivity. cbn [negb].
  rewrite (bind_Ok _ _ _ _ _ (getattr_args_Ok _ _ _ _ _ Hia)).
  rewrite (bind_Ok _ _ _ _ _ (getattr_kwargs_Ok _ _ _ _ _ Hia)).
  rewrite (bind_Ok _ _ _ _ _ (getattr_args_Ok _ _ _ _ _ Hib)).
  rewrite (bind_Ok _ _ _ _ _ (getattr_kwargs_Ok _ _ _ _ _ Hib)).
  unfold tuple_ref_eq, dict_ref_eq, bind, ret. by rewrite !Nat.eqb_refl.
Qed.

Lemma read_only_ne self other : read_only (Arguments___ne__ self other).
Proof.
  unfold Arguments___ne__.
  apply read_only_bind; [apply read_only_eq | intros ?; apply read_only_ret].
Qed.

Lemma read_only_operator_eq self other : read_only (operator_eq self other).
Proof.
  destruct other; try apply read_only_eq. simpl.
  apply read_only_bind; [apply read_only_get_instance | intros ia].
  apply read_only_bind; [apply read_only_get_instance | intros io].
  destruct (is_proper_subclass _ _); apply read_only_eq.
Qed.

Lemma read_only_operator_ne self other : read_only (operator_ne self other).
Proof.
  destruct other; try apply read_only_ne. simpl.
  apply read_only_bind; [apply read_only_get_instance | intros ia].
  apply read_only_bind; [apply read_only_get_instance | intros io].
  destruct (is_proper_subclass _ _); apply read_only_ne.
Qed.

Lemma operator_eq_same_class (s : store V W) a b ia ib :
  instances s !! a = Some ia -> instances s !! b = Some ib ->
  is_proper_subclass (inst_class ib) (inst_class ia) = false ->
  operator_eq a (VInstance b) s = Arguments___eq__ a (VInstance b) s.
Proof.
  intros Ha Hb Hc. unfold operator_eq, bind at 1 2, get_instance.
  by rewrite Ha, Hb, Hc.
Qed.

Lemma operator_ne_same_class (s : store V W) a b ia ib :
  instances s !! a = Some ia -> instances s !! b = Some ib ->
  is_proper_subclass (inst_class ib) (inst_class ia) = false ->
  operator_ne a (VInstance b) s = Arguments___ne__ a (VInstance b) s.
Proof.
  intros Ha Hb Hc. unfold operator_ne, bind at 1 2, get_instance.
  by rewrite Ha, Hb, Hc.
Qed.

(** ** Properties of the module *)

(** C1.  [apply] binds its own parameters first.  An extra keyword named
    [self] or [callable] is a second value for a parameter: [apply]
    raises [TypeError] and the target is never called, whatever the
    bundle, and the store is as before.  With any other extra keywords,
    [apply] calls its target with the stored positionals followed by the
    extra ones, and with the stored named arguments updated by the extra
    ones: a key of the extras takes the value of the extras, every other
    key keeps the stored value. *)
Theorem apply_merges_unless_reserved_keyword :
  (forall (s : store V W) self (f : pycallable F V) (E : list V)
          (M' : dict V) key,
     key ∈ ["self"; "callable"] ->
     key ∈ M'.*1 ->
     exists msg,
       Arguments_apply self f E M' s = (Raise (TypeError msg), s))
  /\ (forall (s : store V W) self a k P N (f : pycallable F V)
             (E : list V) (M' : dict V),
        is_bundle s self a k P N ->
        dict_wf M' ->
        binds ["self"; "callable"] M' = true ->
        (exists s',
           Arguments_apply self f E M' s
           = call f (P ++ E) (dict_update N M') s'
           /\ store_preserved s s' /\ env s' = env s)
        /\ (forall key,
              dict_get key (dict_update N M')
              = match dict_get key M' with
                | Some v => Some v
                | None => dict_get key N
                end)).
Proof.
  split.
  - intros s self f E M' key Hp Hk. apply apply_raises.
    by apply (binds_false _ _ key).
  - intros s self a k P N f E M' Hb Hwf Hbind. split.
    + eexists. split; [apply (apply_run s self a k P N f E M' Hb Hbind)|].
      destruct (negb (truthy E) && negb (truthy M')).
      * split; [apply store_preserved_refl | reflexivity].
      * split; [apply store_preserved_with_merged | reflexivity].
    + intros key. by apply dict_get_update.
Qed.

(** C3. The factory followed by iteration gives back the arguments: the
    iterator yields exactly two values, first a reference to a tuple
    holding the positionals, then a reference to a dict holding the named
    arguments. *)
Theorem argskwargs_iter_roundtrip (P : list V) (N : dict V) (s : store V W) :
  exists self a k s',
    argskwargs P N s = (Ok (VInstance self), s')
    /\ Arguments___iter__ self s' = (Ok [VTuple a; VDict k], s')
    /\ tuples s' !! a = Some P
    /\ dicts s' !! k = Some N.
Proof.
  rewrite argskwargs_run. do 4 eexists. split; [reflexivity|].
  split; [|split; simpl; apply lookup_snoc_last].
  unfold Arguments___iter__.
  assert (Hi : instances
            (Store (tuples s ++ [P]) (dicts s ++ [N])
               (instances s
                ++ [Instance CArguments (Some (length (tuples s)))
                      (Some (length (dicts s)))]) (env s))
          !! length (instances s)
          = Some (Instance CArguments (Some (length (tuples s)))
                    (Some (length (dicts s)))))
    by apply lookup_snoc_last.
  rewrite (bind_Ok _ _ _ _ _ (getattr_args_Ok _ _ _ _ _ Hi)).
  rewrite (bind_Ok _ _ _ _ _ (getattr_kwargs_Ok _ _ _ _ _ Hi)).
  reflexivity.
Qed.

(** C4. On two bundles [==] is true exactly when the positionals are
    equal item by item and the named arguments agree key by key, and
    [!=] is its negation; both are the answers of the bundle's own
    [__eq__] and [__ne__].  On a value that is not an instance of
    [Arguments] or of a class derived from it, [==] is false and [!=] is
    true.  Items are compared as Python's containers compare them, which
    makes an item equal to itself. *)
Theorem eq_structural :
  (forall (s : store V W) a aa ak Pa Na b ba bk Pb Nb,
     (forall x, py_eq x x = true) ->
     is_bundle s a aa ak Pa Na -> is_bundle s b ba bk Pb Nb ->
     dict_wf Na -> dict_wf Nb ->
     exists r,
       operator_eq a (VInstance b) s = (Ok r, s)
       /\ operator_ne a (VInstance b) s = (Ok (negb r), s)
       /\ Arguments___eq__ a (VInstance b) s = (Ok r, s)
       /\ Arguments___ne__ a (VInstance b) s = (Ok (negb r), s)
       /\ (r = true <->
           Forall2 (fun x y => py_eq x y = true) Pa Pb /\ dict_equiv Na Nb))
  /\ (forall (s : store V W) a (v : value V),
        non_bundle v ->
        operator_eq a v s = (Ok false, s)
        /\ operator_ne a v s = (Ok true, s)).
Proof.
  split.
  - intros s a aa ak Pa Na b ba bk Pb Nb Hr Ha Hb Hwa Hwb.
    pose proof (eq_run s a aa ak Pa Na b ba bk Pb Nb Hr Ha Hb Hwa Hwb) as He.
    assert (Hne : Arguments___ne__ a (VInstance b) s
                  = (Ok (negb (tuple_eqb py_eq Pa Pb && dict_eqb py_eq Na Nb)),
                     s)).
    { unfold Arguments___ne__. by rewrite (bind_Ok _ _ _ _ _ He). }
    eexists. split; [|split; [|split; [exact He|split; [exact Hne|]]]].
    + rewrite (operator_eq_same_class s a b _ _ (proj1 Ha) (proj1 Hb) eq_refl).
      exact He.
    + rewrite (operator_ne_same_class s a b _ _ (proj1 Ha) (proj1 Hb) eq_refl).
      exact Hne.
    + rewrite andb_true_iff, tuple_eqb_Forall2, dict_eqb_equiv by assumption.
      reflexivity.
  - intros s a v Hv. destruct v as [e|n|r|r|r]; try done; split; reflexivity.
Qed.

(** C6. [copy] without extra arguments returns the instance it was called
    on, and the store is the same afterwards: nothing is allocated. *)
Theorem copy_without_arguments_returns_self (self : nat) (s : store V W) :
  Arguments_copy self [] [] s = (Ok (VInstance self), s).
Proof. reflexivity. Qed.

(** C7. [partial] returns a partial object of the target, bound to the
    stored positionals followed by the extra ones and to the stored named
    arguments updated by the extra ones, the very arguments [apply] calls
    the target with.  Calling that object appends the further positionals
    and lets the further named arguments override.  Made without extras
    and called without arguments, it returns or raises what [apply]
    returns or raises, and leaves the state of the callables the same.
    The two methods also refuse the same extras: a keyword named [self]
    or [callable] makes both raise [TypeError] while binding. *)
Theorem partial_agrees_with_apply (s : store V W) self a k P N
    (f : pycallable F V) :
  is_bundle s self a k P N ->
  (exists p0 s0,
     Arguments_partial self f [] [] s = (Ok p0, s0)
     /\ (call p0 [] [] s0).1 = (Arguments_apply self f [] [] s).1
     /\ env (call p0 [] [] s0).2 = env (Arguments_apply self f [] [] s).2)
  /\ (forall (E : list V) (M' : dict V),
       binds ["self"; "callable"] M' = true ->
       exists p s1 s2,
         Arguments_partial self f E M' s = (Ok p, s1)
         /\ p = Partial f (P ++ E) (dict_update N M')
         /\ store_preserved s s1 /\ env s1 = env s
         /\ Arguments_apply self f E M' s
            = call f (P ++ E) (dict_update N M') s2
         /\ store_preserved s s2 /\ env s2 = env s
         /\ (forall E2 M2 st,
               call p E2 M2 st
               = call f ((P ++ E) ++ E2)
                   (dict_update (dict_update N M') M2) st))
  /\ (forall (E : list V) (M' : dict V),
       binds ["self"; "callable"] M' = false ->
       (exists msg,
          Arguments_partial self f E M' s = (Raise (TypeError msg), s))
       /\ (exists msg,
            Arguments_apply self f E M' s = (Raise (TypeError msg), s))).
Proof.
  intros Hb. split; [|split].
  - do 2 eexists.
    split; [apply (partial_run s self a k P N f [] [] Hb eq_refl)|].
    rewrite (apply_run s self a k P N f [] [] Hb eq_refl).
    cbn [call truthy negb andb]. rewrite !app_nil_r, !dict_update_nil.
    apply call_outcome; reflexivity.
  - intros E M' Hbind. do 3 eexists.
    split; [apply (partial_run s self a k P N f E M' Hb Hbind)|].
    split; [reflexivity|].
    split; [apply store_preserved_with_merged|].
    split; [reflexivity|].
    split; [apply (apply_run s self a k P N f E M' Hb Hbind)|].
    split; [destruct (negb (truthy E) && negb (truthy M'));
            [apply store_preserved_refl | apply store_preserved_with_merged]|].
    split; [by destruct (negb (truthy E) && negb (truthy M'))|].
    reflexivity.
  - intros E M' Hbind.
    split; [by apply partial_raises | by apply apply_raises].
Qed.

(** C8. Without extra arguments, [apply] is the call of the target on the
    stored tuple and the stored dict themselves: the call unpacks the two
    objects the slots refer to, from the store as it was, in which no
    merged container has been built. *)
Theorem apply_without_extras_uses_stored_containers (s : store V W)
    self a k P N (f : pycallable F V) :
  is_bundle s self a k P N ->
  Arguments_apply self f [] [] s = call_star f a k s
  /\ call_star f a k s = call f P N s.
Proof.
  intros (Hi & Ha & Hk). split.
  - unfold Arguments_apply.
    rewrite (bind_Ok _ _ _ _ _ (bind_parameters_Ok "apply" _ [] s eq_refl)).
    cbn [truthy negb andb].
    rewrite (bind_Ok _ _ _ _ _ (getattr_args_Ok _ _ _ _ _ Hi)).
    rewrite (bind_Ok _ _ _ _ _ (getattr_kwargs_Ok _ _ _ _ _ Hi)).
    reflexivity.
  - by apply call_star_Ok.
Qed.

(** C9. No operation changes a bundle: after [apply], [partial] and
    [copy] every object of the earlier store is unchanged, so the bundle
    still holds the same tuple and the same dict with the same items;
    [repr], [==], [!=] and iteration leave the whole store as it was.
    When [apply] merges, the dict it updates is a new object of the
    store. *)
Theorem operations_do_not_mutate (s : store V W) self a k P N :
  is_bundle s self a k P N ->
  (forall f E M',
     let s' := (Arguments_apply self f E M' s).2 in
     store_preserved s s' /\ is_bundle s' self a k P N)
  /\ (forall f E M',
        let s' := (Arguments_partial self f E M' s).2 in
        store_preserved s s' /\ is_bundle s' self a k P N)
  /\ (forall E M',
        let s' := (Arguments_copy self E M' s).2 in
        store_preserved s s' /\ is_bundle s' self a k P N)
  /\ (Arguments___repr__ self s).2 = s
  /\ (forall other, (Arguments___eq__ self other s).2 = s)
  /\ (Arguments___iter__ self s).2 = s
  /\ (forall f E M',
        binds ["self"; "callable"] M' = true ->
        negb (truthy E) && negb (truthy M') = false ->
        exists a' k' s',
          Arguments_apply self f E M' s = call_star f a' k' s'
          /\ dicts s !! k' = None
          /\ dicts s' !! k' = Some (dict_update N M')
          /\ store_preserved s s')
  /\ (forall other,
        (operator_eq self other s).2 = s
        /\ (operator_ne self other s).2 = s).
Proof.
  intros Hb.
  assert (Happly : forall f E M',
            store_preserved s (Arguments_apply self f E M' s).2).
  { intros f E M'. by eapply apply_store. }
  assert (Hkeep : forall s', store_preserved s s' ->
            store_preserved s s' /\ is_bundle s' self a k P N).
  { intros s' Hs. split; [exact Hs|]. by eapply is_bundle_preserved. }
  split; [|split; [|split; [|split; [|split; [|split; [|split]]]]]].
  - intros f E M' s'. apply Hkeep, Happly.
  - intros f E M' s'. subst s'. apply Hkeep.
    destruct (binds ["self"; "callable"] M') eqn:Hbind.
    + rewrite (partial_run s self a k P N f E M' Hb Hbind).
      apply store_preserved_with_merged.
    + destruct (partial_raises s self f E M' Hbind) as (msg & ->).
      apply store_preserved_refl.
  - intros E M' s'. subst s'. apply Hkeep. unfold Arguments_copy.
    destruct (binds ["self"] M') eqn:Hself.
    + rewrite (bind_Ok _ _ _ _ _ (bind_parameters_Ok _ _ _ _ Hself)).
      destruct (negb (truthy E) && negb (truthy M'));
        [apply store_preserved_refl | apply Happly].
    + destruct (bind_parameters_Raise "copy" _ _ s Hself) as (msg & Hr).
      rewrite (bind_Raise _ _ _ _ _ Hr). apply store_preserved_refl.
  - apply read_only_repr.
  - intros other. apply read_only_eq.
  - apply read_only_iter.
  - intros f E M' Hbind Hex.
    exists (length (tuples s)), (length (dicts s)),
      (with_merged s (P ++ E) (dict_update N M')).
    split; [|split; [|split]].
    + unfold Arguments_apply.
      rewrite (bind_Ok _ _ _ _ _ (bind_parameters_Ok _ _ _ _ Hbind)).
      rewrite Hex.
      apply (merge_steps s self a k P N E M' (call_star f) Hb).
    + by apply lookup_ge_None.
    + apply with_merged_lookup.
    + apply store_preserved_with_merged.
  - intros other. split; [apply read_only_operator_eq|apply read_only_operator_ne].
Qed.

(** C10.  The test of [__eq__] is on the exact type of its operand, so the
    method of a bundle answers false on an instance of a derived class.
    The operators do not: with such an instance on the right, [==] runs
    the method the instance inherits, with the bundle as operand, and a
    bundle and an instance of a derived class that hold the same tuple
    and the same dict compare equal, [==] true and [!=] false. *)
Theorem eq_operator_accepts_derived_instance (s : store V W)
    (b a k : nat) (P : list V) (N : dict V) (sub n : nat) :
  is_bundle s b a k P N ->
  instances s !! sub = Some (Instance (CSubclass n) (Some a) (Some k)) ->
  operator_eq b (VInstance sub) s = (Ok true, s)
  /\ operator_ne b (VInstance sub) s = (Ok false, s)
  /\ Arguments___eq__ b (VInstance sub) s = (Ok false, s).
Proof.
  intros Hb Hsub. pose proof Hb as (Hi & _ & _).
  pose proof (eq_same_containers s sub _ a k b Hsub Hi) as He.
  split; [|split].
  - unfold operator_eq, bind, get_instance. rewrite Hi, Hsub. exact He.
  - unfold operator_ne, bind, get_instance. rewrite Hi, Hsub.
    cbn [inst_class is_proper_subclass].
    unfold Arguments___ne__. by rewrite (bind_Ok _ _ _ _ _ He).
  - apply eq_other_type. eexists. split; [exact Hsub | discriminate].
Qed.

(** C2, as the code has it.  A direct construction raises the [TypeError]
    of [__init__] exactly when its third argument is not the sentinel
    object of the module: the guard is a test of identity against that
    object.  With the sentinel it returns a new instance holding the two
    arguments, of whatever class was called; the factory passes the
    sentinel and never raises. *)
Theorem init_guard_is_sentinel_check (cls : pyclass) (a k : nat)
    (magic : value V) (s : store V W) :
  ((exists msg s', instantiate cls a k magic s = (Raise (TypeError msg), s'))
   <-> magic <> _yes_i_am_an_internal_call)
  /\ instantiate cls a k _yes_i_am_an_internal_call s
     = (Ok (length (instances s)),
        Store (tuples s) (dicts s)
              (instances s ++ [Instance cls (Some a) (Some k)]) (env s))
  /\ (forall P N, exists self s', argskwargs P N s = (Ok (VInstance self), s')).
Proof.
  split; [|split].
  - rewrite instantiate_run.
    destruct (value_is magic _yes_i_am_an_internal_call) eqn:Hm.
    + apply value_is_sentinel in Hm. split; [intros (? & ? & [=]) | congruence].
    + split; [|eauto]. intros _ Heq. apply value_is_sentinel in Heq. congruence.
  - by rewrite instantiate_run.
  - intros P N. rewrite argskwargs_run. eauto.
Qed.

(** ** Composition of updates *)

Lemma dict_setitem_setitem (k : string) (v v1 : V) (d : dict V) :
  dict_setitem k v (dict_setitem k v1 d) = dict_setitem k v d.
Proof using Type.
  induction d as [|[k' v'] d IH]; simpl.
  - by rewrite String.eqb_refl.
  - destruct (String.eqb_spec k k') as [->|Hne]; simpl.
    + by rewrite String.eqb_refl.
    + destruct (String.eqb_spec k k'); [congruence|]. by rewrite IH.
Qed.

Lemma dict_setitem_comm (k k2 : string) (v v2 : V) (d : dict V) :
  k <> k2 -> k ∈ d.*1 ->
  dict_setitem k v (dict_setitem k2 v2 d)
  = dict_setitem k2 v2 (dict_setitem k v d).
Proof using Type.
  intros Hne. induction d as [|[k' v'] d IH]; csimpl; intros Hin.
  - by apply elem_of_nil in Hin.
  - destruct (String.eqb_spec k2 k') as [->|Hk2]; simpl.
    + destruct (String.eqb_spec k k') as [->|_]; [congruence|]. simpl.
      by rewrite String.eqb_refl.
    + destruct (String.eqb_spec k k') as [->|Hk]; simpl.
      * destruct (String.eqb_spec k2 k'); [congruence|]. reflexivity.
      * destruct (String.eqb_spec k2 k'); [congruence|].
        apply elem_of_cons in Hin as [->|Hin]; [congruence|]. by rewrite IH.
Qed.

Lemma dict_setitem_elem_of (k : string) (v : V) (d : dict V) :
  k ∈ (dict_setitem k v d).*1.
Proof using Type.
  rewrite dict_setitem_keys. case_bool_decide as Hin; [assumption|].
  apply elem_of_app. right. by apply list_elem_of_singleton.
Qed.

Lemma dict_setitem_elem_of_other (k k2 : string) (v2 : V) (d : dict V) :
  k ∈ d.*1 -> k ∈ (dict_setitem k2 v2 d).*1.
Proof using Type.
  intros Hin. rewrite dict_setitem_keys. case_bool_decide; [assumption|].
  apply elem_of_app. by left.
Qed.

Lemma dict_update_setitem_present (k : string) (v : V) (d m : dict V) :
  k ∉ m.*1 -> k ∈ d.*1 ->
  dict_setitem k v (dict_update d m) = dict_update (dict_setitem k v d) m.
Proof using Type.
  unfold dict_update. revert d.
  induction m as [|[k2 v2] m IH]; csimpl; intros d Hk Hin; [reflexivity|].
  apply not_elem_of_cons in Hk as [Hne Hk].
  rewrite IH by (assumption || by apply dict_setitem_elem_of_other).
  by rewrite dict_setitem_comm.
Qed.

Lemma dict_update_snoc (d m : dict V) (k : string) (v : V) :
  dict_update d (m ++ [(k, v)]) = dict_setitem k v (dict_update d m).
Proof using Type. unfold dict_update. by rewrite fold_left_app. Qed.

(** Storing one more item in the dict a target is updated with is storing
    it in the result. *)
Lemma dict_update_setitem (k : string) (v : V) (d m : dict V) :
  dict_wf m ->
  dict_update d (dict_setitem k v m) = dict_setitem k v (dict_update d m).
Proof using Type.
  unfold dict_wf. revert d.
  induction m as [|[k1 v1] m IH]; csimpl; intros d Hwf; [reflexivity|].
  apply NoDup_cons in Hwf as [Hk1 Hwf].
  destruct (String.eqb_spec k k1) as [->|Hne].
  - change (dict_update (dict_setitem k1 v d) m
            = dict_setitem k1 v (dict_update (dict_setitem k1 v1 d) m)).
    rewrite dict_update_setitem_present
      by (assumption || apply dict_setitem_elem_of).
    by rewrite dict_setitem_setitem.
  - change (dict_update (dict_setitem k1 v1 d) (dict_setitem k v m)
            = dict_setitem k v (dict_update (dict_setitem k1 v1 d) m)).
    by apply IH.
Qed.

(** Updating twice is updating once with the update of the updates, as
    ordered dicts: same names in the same order, same values. *)
Lemma dict_update_assoc (d m m2 : dict V) :
  dict_wf m ->
  dict_update (dict_update d m) m2 = dict_update d (dict_update m m2).
Proof using Type.
  intros Hwf. induction m2 as [|[k v] m2 IH] using rev_ind; [reflexivity|].
  rewrite !dict_update_snoc, IH.
  rewrite dict_update_setitem by (by apply dict_update_wf). reflexivity.
Qed.

(** ** Further runs: the factory as a target, states, equality *)

Lemma factory_bundle (P : list V) (N : dict V) (s : store V W) :
  exists s',
    argskwargs P N s = (Ok (VInstance (length (instances s))), s')
    /\ is_bundle s' (length (instances s)) (length (tuples s))
         (length (dicts s)) P N
    /\ store_preserved s s'
    /\ env s' = env s.
Proof.
  rewrite argskwargs_run. eexists. split; [reflexivity|].
  split; [repeat split; simpl; apply lookup_snoc_last|].
  split; [|reflexivity].
  repeat split; simpl; apply prefix_app_r; reflexivity.
Qed.

Lemma apply_factory_run (s : store V W) self a k P N args kwargs :
  is_bundle s self a k P N ->
  binds ["self"; "callable"] kwargs = true ->
  exists r a' k' s',
    Arguments_apply self FArgskwargs args kwargs s = (Ok (VInstance r), s')
    /\ instances s !! r = None
    /\ tuples s !! a' = None
    /\ dicts s !! k' = None
    /\ is_bundle s' r a' k' (P ++ args) (dict_update N kwargs)
    /\ store_preserved s s'
    /\ env s' = env s.
Proof.
  intros Hb Hbind.
  rewrite (apply_run s self a k P N FArgskwargs args kwargs Hb Hbind).
  cbn [call].
  set (s0 := if negb (truthy args) && negb (truthy kwargs) then s
             else with_merged s (P ++ args) (dict_update N kwargs)).
  assert (Hpre : store_preserved s s0 /\ env s0 = env s
                 /\ instances s0 = instances s).
  { subst s0. destruct (negb (truthy args) && negb (truthy kwargs)).
    - split; [apply store_preserved_refl | by split].
    - split; [apply store_preserved_with_merged | by split]. }
  destruct Hpre as (Hpre & Henv & Hinst).
  destruct (factory_bundle (P ++ args) (dict_update N kwargs) s0)
    as (s' & Hrun & Hnew & Hpre' & Henv').
  exists (length (instances s0)), (length (tuples s0)), (length (dicts s0)), s'.
  destruct Hpre as (Ht & Hd & Hi).
  split; [exact Hrun|].
  split; [apply lookup_ge_None; by apply prefix_length|].
  split; [apply lookup_ge_None; by apply prefix_length|].
  split; [apply lookup_ge_None; by apply prefix_length|].
  split; [exact Hnew|].
  split; [eapply store_preserved_trans; [|exact Hpre']; by repeat split|].
  congruence.
Qed.

Lemma copy_run (s : store V W) self a k P N args kwargs :
  is_bundle s self a k P N ->
  binds ["self"; "callable"] kwargs = true ->
  exists r a' k' s',
    Arguments_copy self args kwargs s = (Ok (VInstance r), s')
    /\ is_bundle s' r a' k' (P ++ args) (dict_update N kwargs)
    /\ store_preserved s s'
    /\ env s' = env s
    /\ (r = self <-> negb (truthy args) && negb (truthy kwargs) = true).
Proof.
  intros Hb Hbind. unfold Arguments_copy.
  assert (Hself : binds ["self"] kwargs = true).
  { apply (binds_fewer ["self"; "callable"]); [|exact Hbind].
    intros key ->%list_elem_of_singleton. by left. }
  rewrite (bind_Ok _ _ _ _ _ (bind_parameters_Ok _ _ _ _ Hself)).
  destruct (negb (truthy args) && negb (truthy kwargs)) eqn:Hno.
  - apply no_extras_inv in Hno as [-> ->].
    exists self, a, k, s. rewrite app_nil_r, dict_update_nil.
    split; [reflexivity|]. split; [exact Hb|].
    split; [apply store_preserved_refl|]. by split.
  - destruct (apply_factory_run s self a k P N args kwargs Hb Hbind)
      as (r & a' & k' & s' & Hrun & Hr & _ & _ & Hnew & Hpre & Henv).
    exists r, a', k', s'. repeat (split; [assumption|]).
    split; [|discriminate]. intros ->. destruct Hb as (Hi & _). congruence.
Qed.

Lemma eq_run_any (s : store V W) self c aa ak Pa Na b ba bk Pb Nb :
  (forall x, py_eq x x = true) ->
  instances s !! self = Some (Instance c (Some aa) (Some ak)) ->
  tuples s !! aa = Some Pa -> dicts s !! ak = Some Na ->
  is_bundle s b ba bk Pb Nb ->
  dict_wf Na -> dict_wf Nb ->
  Arguments___eq__ self (VInstance b) s
  = (Ok (tuple_eqb py_eq Pa Pb && dict_eqb py_eq Na Nb), s).
Proof.
  intros Hr Hia Hta Hda (Hib & Htb & Hdb) Hwa Hwb.
  unfold Arguments___eq__.
  rewrite (bind_Ok _ _ _ _ _ (type_is_Arguments_instance _ _ _ Hib)).
  rewrite bool_decide_eq_true_2 by reflexivity. cbn [negb].
  rewrite (bind_Ok _ _ _ _ _ (getattr_args_Ok _ _ _ _ _ Hia)).
  rewrite (bind_Ok _ _ _ _ _ (getattr_kwargs_Ok _ _ _ _ _ Hia)).
  rewrite (bind_Ok _ _ _ _ _ (getattr_args_Ok _ _ _ _ _ Hib)).
  rewrite (bind_Ok _ _ _ _ _ (getattr_kwargs_Ok _ _ _ _ _ Hib)).
  assert (Ht : tuple_ref_eq aa ba s = (Ok (tuple_eqb py_eq Pa Pb), s)).
  { unfold tuple_ref_eq. destruct (Nat.eqb_spec aa ba) as [->|_].
    - assert (Pa = Pb) as -> by congruence. by rewrite tuple_eqb_refl.
    - rewrite (bind_Ok _ _ _ _ _ (get_tuple_Ok _ _ _ Hta)).
      by rewrite (bind_Ok _ _ _ _ _ (get_tuple_Ok _ _ _ Htb)). }
  assert (Hd : dict_ref_eq ak bk s = (Ok (dict_eqb py_eq Na Nb), s)).
  { unfold dict_ref_eq. destruct (Nat.eqb_spec ak bk) as [->|_].
    - assert (Na = Nb) as -> by congruence. by rewrite dict_eqb_refl.
    - rewrite (bind_Ok _ _ _ _ _ (get_dict_Ok _ _ _ Hda)).
      by rewrite (bind_Ok _ _ _ _ _ (get_dict_Ok _ _ _ Hdb)). }
  rewrite (bind_Ok _ _ _ _ _ Ht).
  destruct (tuple_eqb py_eq Pa Pb); [exact Hd | reflexivity].
Qed.

Lemma tuple_eqb_sym (a b : list V) :
  (forall x y, py_eq x y = py_eq y x) ->
  tuple_eqb py_eq a b = tuple_eqb py_eq b a.
Proof.
  intros Hs. revert b. induction a as [|x a IH]; intros [|y b]; simpl;
    try reflexivity. by rewrite Hs, IH.
Qed.

Lemma dict_equiv_sym (a b : dict V) :
  (forall x y, py_eq x y = py_eq y x) -> dict_equiv a b -> dict_equiv b a.
Proof.
  intros Hs H key. specialize (H key).
  destruct (dict_get key a), (dict_get key b); try done. by rewrite Hs.
Qed.

Lemma dict_equiv_trans (a b c : dict V) :
  (forall x y z, py_eq x y = true -> py_eq y z = true -> py_eq x z = true) ->
  dict_equiv a b -> dict_equiv b c -> dict_equiv a c.
Proof.
  intros Ht Hab Hbc key. specialize (Hab key). specialize (Hbc key).
  destruct (dict_get key a), (dict_get key b), (dict_get key c); try done.
  eauto.
Qed.

Lemma dict_eqb_sym (a b : dict V) :
  (forall x y, py_eq x y = py_eq y x) ->
  dict_wf a -> dict_wf b ->
  dict_eqb py_eq a b = dict_eqb py_eq b a.
Proof.
  intros Hs Ha Hb. apply Bool.eq_iff_eq_true.
  rewrite !dict_eqb_equiv by assumption.
  split; by apply dict_equiv_sym.
Qed.

Lemma tuple_eqb_trans (a b c : list V) :
  (forall x y z, py_eq x y = true -> py_eq y z = true -> py_eq x z = true) ->
  tuple_eqb py_eq a b = true -> tuple_eqb py_eq b c = true ->
  tuple_eqb py_eq a c = true.
Proof.
  intros Ht. revert b c.
  induction a as [|x a IH]; intros [|y b] [|z c]; simpl; try done.
  rewrite !andb_true_iff. intros [Hxy Hab] [Hyz Hbc]. split; eauto.
Qed.

Lemma dict_update_at_run (s : store V W) k N kwargs :
  dicts s !! k = Some N ->
  dict_update_at k kwargs s
  = (Ok tt, Store (tuples s) (<[k := dict_update N kwargs]> (dicts s))
              (instances s) (env s)).
Proof.
  intros Hk. unfold dict_update_at.
  rewrite (bind_Ok _ _ _ _ _ (get_dict_Ok _ _ _ Hk)). reflexivity.
Qed.

Lemma setstate_run (s : store V W) self i a k :
  instances s !! self = Some i ->
  Arguments___setstate__ self (a, k) s
  = (Ok tt, Store (tuples s) (dicts s)
              (<[self := Instance (inst_class i) (Some a) (Some k)]>
                 (instances s))
              (env s)).
Proof.
  intros Hi. pose proof (lookup_lt_Some _ _ _ Hi) as Hlt.
  unfold Arguments___setstate__, setattr_args, setattr_kwargs, get_instance,
    put_instance, bind. simpl. rewrite Hi. simpl.
  rewrite list_lookup_insert_eq by assumption. simpl.
  by rewrite list_insert_insert_eq.
Qed.

Lemma getstate_run (s : store V W) self c a k :
  instances s !! self = Some (Instance c (Some a) (Some k)) ->
  Arguments___getstate__ self s = (Ok (a, k), s).
Proof.
  intros Hi. unfold Arguments___getstate__.
  rewrite (bind_Ok _ _ _ _ _ (getattr_args_Ok _ _ _ _ _ Hi)).
  by rewrite (bind_Ok _ _ _ _ _ (getattr_kwargs_Ok _ _ _ _ _ Hi)).
Qed.

(** ** Further properties of the module *)

(** X1. [apply] with the factory as target builds a new bundle, also when
    no extras are given: a new instance with a new dict, holding the
    stored positionals followed by the extras and the stored named
    arguments updated by the extras; the bundle it was called on is as
    before.  The extra keywords are any that [apply] can bind, none named
    [self] or [callable]. *)
Theorem apply_factory_builds_new_bundle (s : store V W) self a k P N
    (E : list V) (M' : dict V) :
  is_bundle s self a k P N ->
  binds ["self"; "callable"] M' = true ->
  exists r a' k' s',
    Arguments_apply self FArgskwargs E M' s = (Ok (VInstance r), s')
    /\ instances s !! r = None
    /\ dicts s !! k' = None
    /\ is_bundle s' r a' k' (P ++ E) (dict_update N M')
    /\ is_bundle s' self a k P N.
Proof.
  intros Hb Hbind.
  destruct (apply_factory_run s self a k P N E M' Hb Hbind)
    as (r & a' & k' & s' & Hrun & Hr & _ & Hk & Hnew & Hpre & _).
  exists r, a', k', s'. repeat (split; [assumption|]).
  by eapply is_bundle_preserved.
Qed.

(** X2. [copy] raises [TypeError] on an extra keyword named [self] or
    [callable], leaving the store as it was.  With any other extras it
    returns a bundle holding the stored positionals followed by the
    extras and the stored named arguments updated by the extras; that
    bundle is the instance it was called on exactly when no extras are
    given, and the earlier objects are unchanged in both cases. *)
Theorem copy_merges_into_bundle (s : store V W) self a k P N
    (E : list V) (M' : dict V) :
  is_bundle s self a k P N ->
  (binds ["self"; "callable"] M' = false ->
   exists msg, Arguments_copy self E M' s = (Raise (TypeError msg), s))
  /\ (binds ["self"; "callable"] M' = true ->
      exists r a' k' s',
        Arguments_copy self E M' s = (Ok (VInstance r), s')
        /\ is_bundle s' r a' k' (P ++ E) (dict_update N M')
        /\ store_preserved s s'
        /\ (r = self <-> E = [] /\ M' = [])).
Proof.
  intros Hb. split; [apply copy_raises|]. intros Hbind.
  destruct (copy_run s self a k P N E M' Hb Hbind)
    as (r & a' & k' & s' & Hrun & Hnew & Hpre & _ & Hself).
  exists r, a', k', s'. repeat (split; [assumption|]).
  rewrite Hself. split; [apply no_extras_inv | by intros [-> ->]].
Qed.

(** X3. Copying twice is copying once with the two lists of extras
    joined and the second named extras updating the first: both ways end
    in a bundle of the same positionals and the same named arguments, in
    the same order.  The extra keywords are any that [copy] can bind,
    none named [self] or [callable]. *)
Theorem copy_composes (s : store V W) self a k P N
    (E1 E2 : list V) (M1 M2 : dict V) :
  is_bundle s self a k P N ->
  dict_wf M1 ->
  binds ["self"; "callable"] M1 = true ->
  binds ["self"; "callable"] M2 = true ->
  exists r1 s1 r2 a2 k2 s2 r a' k' s',
    Arguments_copy self E1 M1 s = (Ok (VInstance r1), s1)
    /\ Arguments_copy r1 E2 M2 s1 = (Ok (VInstance r2), s2)
    /\ Arguments_copy self (E1 ++ E2) (dict_update M1 M2) s
       = (Ok (VInstance r), s')
    /\ is_bundle s2 r2 a2 k2 (P ++ E1 ++ E2)
         (dict_update N (dict_update M1 M2))
    /\ is_bundle s' r a' k' (P ++ E1 ++ E2)
         (dict_update N (dict_update M1 M2)).
Proof.
  intros Hb Hwf Hb1 Hb2.
  destruct (copy_run s self a k P N E1 M1 Hb Hb1)
    as (r1 & a1 & k1 & s1 & Hc1 & Hbu1 & _).
  destruct (copy_run s1 r1 a1 k1 _ _ E2 M2 Hbu1 Hb2)
    as (r2 & a2 & k2 & s2 & Hc2 & Hbu2 & _).
  destruct (copy_run s self a k P N (E1 ++ E2) (dict_update M1 M2) Hb
              (binds_update _ _ _ Hb1 Hb2))
    as (r & a' & k' & s' & Hc & Hb' & _).
  rewrite <- app_assoc, dict_update_assoc in Hbu2 by assumption.
  exists r1, s1, r2, a2, k2, s2, r, a', k', s'.
  repeat (split; [assumption|]). assumption.
Qed.

(** X4. [apply] on a function of the caller, with extra keywords it can
    bind, returns what the function returns and raises what it raises,
    on the merged arguments and from the state the callables were in, and
    leaves the state the function leaves: no exception is caught or
    replaced. *)
Theorem apply_returns_target_outcome (s : store V W) self a k P N
    (g : F) (E : list V) (M' : dict V) :
  is_bundle s self a k P N ->
  binds ["self"; "callable"] M' = true ->
  (Arguments_apply self (Fn g) E M' s).1
  = match (run g (P ++ E) (dict_update N M') (env s)).1 with
    | Ok v => Ok (VElem v)
    | Raise e => Raise e
    end
  /\ env (Arguments_apply self (Fn g) E M' s).2
     = (run g (P ++ E) (dict_update N M') (env s)).2.
Proof.
  intros Hb Hbind.
  rewrite (apply_run s self a k P N (Fn g) E M' Hb Hbind). cbn [call].
  destruct (negb (truthy E) && negb (truthy M')); simpl;
    destruct (run g (P ++ E) (dict_update N M') (env s)); by split.
Qed.

(** X5. Calling the object [partial] returns with further arguments has
    the outcome, and the effect on the state of the callables, of [apply]
    with the extras followed by the further positionals and the named
    extras updated by the further named arguments, as long as none of the
    keywords is named [self] or [callable]. *)
Theorem partial_then_call_is_apply (s : store V W) self a k P N
    (f : pycallable F V) (E E2 : list V) (M' M2 : dict V) :
  is_bundle s self a k P N ->
  dict_wf M' ->
  binds ["self"; "callable"] M' = true ->
  binds ["self"; "callable"] M2 = true ->
  exists p s1,
    Arguments_partial self f E M' s = (Ok p, s1)
    /\ (call p E2 M2 s1).1
       = (Arguments_apply self f (E ++ E2) (dict_update M' M2) s).1
    /\ env (call p E2 M2 s1).2
       = env (Arguments_apply self f (E ++ E2) (dict_update M' M2) s).2.
Proof.
  intros Hb Hwf Hb1 Hb2. do 2 eexists.
  split; [apply (partial_run s self a k P N f E M' Hb Hb1)|].
  rewrite (apply_run s self a k P N f (E ++ E2) (dict_update M' M2) Hb
             (binds_update _ _ _ Hb1 Hb2)).
  cbn [call]. rewrite <- app_assoc, dict_update_assoc by assumption.
  apply call_outcome;
    by destruct (negb (truthy (E ++ E2)) && negb (truthy (dict_update M' M2))).
Qed.

(** X6. The state of a bundle, assigned to a new instance, rebuilds it
    without the sentinel: an instance made by [__new__] and given the
    result of [__getstate__] through [__setstate__] has the state of the
    original, referring to the same tuple and the same dict.  The
    original's [==] on it is true whatever its class; the original's own
    [__eq__], called on it, answers true exactly when its class is
    [Arguments] itself. *)
Theorem setstate_getstate_rebuilds (s : store V W) self a k P N
    (cls : pyclass) :
  is_bundle s self a k P N ->
  let s' := Store (tuples s) (dicts s)
              (instances s ++ [Instance cls (Some a) (Some k)]) (env s) in
  (state <- Arguments___getstate__ self ;;
   new <- new_instance cls ;;
   Arguments___setstate__ new state ;;
   ret new) s
  = (Ok (length (instances s)), s')
  /\ Arguments___getstate__ (length (instances s)) s' = (Ok (a, k), s')
  /\ operator_eq self (VInstance (length (instances s))) s' = (Ok true, s')
  /\ Arguments___eq__ self (VInstance (length (instances s))) s'
     = (Ok (bool_decide (cls = CArguments)), s').
Proof.
  intros (Hi & Ha & Hk) s'. subst s'.
  assert (Hnew : instances
            (Store (tuples s) (dicts s)
               (instances s ++ [Instance cls (Some a) (Some k)]) (env s))
          !! length (instances s)
          = Some (Instance cls (Some a) (Some k)))
    by apply lookup_snoc_last.
  assert (Hold : instances
            (Store (tuples s) (dicts s)
               (instances s ++ [Instance cls (Some a) (Some k)]) (env s))
          !! self
          = Some (Instance CArguments (Some a) (Some k)))
    by (simpl; by apply lookup_app_l_Some).
  split; [|split; [|split]].
  - rewrite (bind_Ok _ _ _ _ _ (getstate_run _ _ _ _ _ Hi)).
    unfold bind at 1, new_instance at 1.
    unfold bind at 1.
    rewrite (setstate_run _ _ (Instance cls None None) a k)
      by apply lookup_snoc_last.
    cbn [tuples dicts instances env inst_class ret].
    by rewrite insert_snoc_last.
  - exact (getstate_run _ _ _ _ _ Hnew).
  - unfold operator_eq, bind at 1 2, get_instance. rewrite Hold, Hnew.
    cbn [inst_class]. destruct cls as [|n]; cbn [is_proper_subclass].
    + by apply (eq_same_containers _ self CArguments a k).
    + by apply (eq_same_containers _ _ (CSubclass n) a k).
  - destruct cls as [|n].
    + rewrite bool_decide_eq_true_2 by reflexivity.
      by apply (eq_same_containers _ self CArguments a k).
    + rewrite bool_decide_eq_false_2 by discriminate.
      apply eq_other_type. eexists. split; [exact Hnew | discriminate].
Qed.

(** X7. [__getstate__] after [__setstate__] returns the state that was
    set, whatever the instance held before; the instance keeps its class,
    and no other instance, tuple or dict changes. *)
Theorem getstate_after_setstate (s : store V W) (self : nat) (i : instance)
    (a k : nat) :
  instances s !! self = Some i ->
  (Arguments___setstate__ self (a, k) ;; Arguments___getstate__ self) s
  = (Ok (a, k),
     Store (tuples s) (dicts s)
           (<[self := Instance (inst_class i) (Some a) (Some k)]>
              (instances s))
           (env s)).
Proof.
  intros Hi. pose proof (lookup_lt_Some _ _ _ Hi) as Hlt.
  rewrite (bind_Ok _ _ _ _ _ (setstate_run s self i a k Hi)).
  assert (Hnew : instances
            (Store (tuples s) (dicts s)
               (<[self := Instance (inst_class i) (Some a) (Some k)]>
                  (instances s)) (env s)) !! self
          = Some (Instance (inst_class i) (Some a) (Some k)))
    by (simpl; by apply list_lookup_insert_eq).
  exact (getstate_run _ _ _ _ _ Hnew).
Qed.

(** X8. A bundle compares equal to itself, whatever [==] does on its
    items: the two sides hold the same tuple and the same dict, and
    identical objects are not compared item by item. *)
Theorem eq_reflexive (s : store V W) self a k P N :
  is_bundle s self a k P N ->
  Arguments___eq__ self (VInstance self) s = (Ok true, s)
  /\ Arguments___ne__ self (VInstance self) s = (Ok false, s).
Proof.
  intros (Hi & _ & _).
  pose proof (eq_same_containers s self CArguments a k self Hi Hi) as He.
  split; [exact He|].
  unfold Arguments___ne__. by rewrite (bind_Ok _ _ _ _ _ He).
Qed.

(** X9. On two bundles [==] gives the same answer in both directions
    when [==] on the items does. *)
Theorem eq_symmetric (s : store V W) a aa ak Pa Na b ba bk Pb Nb :
  (forall x, py_eq x x = true) ->
  (forall x y, py_eq x y = py_eq y x) ->
  is_bundle s a aa ak Pa Na -> is_bundle s b ba bk Pb Nb ->
  dict_wf Na -> dict_wf Nb ->
  Arguments___eq__ a (VInstance b) s = Arguments___eq__ b (VInstance a) s.
Proof.
  intros Hr Hs Ha Hb Hwa Hwb.
  rewrite (eq_run s a aa ak Pa Na b ba bk Pb Nb Hr Ha Hb Hwa Hwb).
  rewrite (eq_run s b ba bk Pb Nb a aa ak Pa Na Hr Hb Ha Hwb Hwa).
  by rewrite (tuple_eqb_sym Pa Pb Hs), (dict_eqb_sym Na Nb Hs Hwa Hwb).
Qed.

(** X10. [==] on bundles is transitive when [==] on the items is. *)
Theorem eq_transitive (s : store V W)
    a aa ak Pa Na b ba bk Pb Nb c ca ck Pc Nc :
  (forall x, py_eq x x = true) ->
  (forall x y z, py_eq x y = true -> py_eq y z = true -> py_eq x z = true) ->
  is_bundle s a aa ak Pa Na -> is_bundle s b ba bk Pb Nb ->
  is_bundle s c ca ck Pc Nc ->
  dict_wf Na -> dict_wf Nb -> dict_wf Nc ->
  Arguments___eq__ a (VInstance b) s = (Ok true, s) ->
  Arguments___eq__ b (VInstance c) s = (Ok true, s) ->
  Arguments___eq__ a (VInstance c) s = (Ok true, s).
Proof.
  intros Hr Ht Ha Hb Hc Hwa Hwb Hwc.
  rewrite (eq_run s a aa ak Pa Na b ba bk Pb Nb Hr Ha Hb Hwa Hwb).
  rewrite (eq_run s b ba bk Pb Nb c ca ck Pc Nc Hr Hb Hc Hwb Hwc).
  rewrite (eq_run s a aa ak Pa Na c ca ck Pc Nc Hr Ha Hc Hwa Hwc).
  intros [= [Hab1 Hab2]%andb_true_iff] [= [Hbc1 Hbc2]%andb_true_iff].
  rewrite (tuple_eqb_trans Pa Pb Pc Ht Hab1 Hbc1).
  apply dict_eqb_equiv in Hab2, Hbc2; try assumption.
  assert (dict_eqb py_eq Na Nc = true) as ->; [|reflexivity].
  apply dict_eqb_equiv; try assumption.
  by apply (dict_equiv_trans Na Nb Nc Ht).
Qed.

(** X11. [__eq__] tests the type of its operand only.  Run on an instance
    of a derived class, with a bundle of equal content as operand, it
    answers true, while the bundle's own [__eq__] on that instance
    answers false. *)
Theorem inherited_eq_not_symmetric (s : store V W)
    sub n sa sk Ps Ns b ba bk Pb Nb :
  (forall x, py_eq x x = true) ->
  instances s !! sub = Some (Instance (CSubclass n) (Some sa) (Some sk)) ->
  tuples s !! sa = Some Ps -> dicts s !! sk = Some Ns ->
  is_bundle s b ba bk Pb Nb ->
  dict_wf Ns -> dict_wf Nb ->
  Forall2 (fun x y => py_eq x y = true) Ps Pb ->
  dict_equiv Ns Nb ->
  Arguments___eq__ sub (VInstance b) s = (Ok true, s)
  /\ Arguments___eq__ b (VInstance sub) s = (Ok false, s).
Proof.
  intros Hr Hi Ht Hd Hb Hws Hwb HP HN. split.
  - rewrite (eq_run_any s sub _ sa sk Ps Ns b ba bk Pb Nb Hr Hi Ht Hd Hb
               Hws Hwb).
    apply tuple_eqb_Forall2 in HP. apply dict_eqb_equiv in HN; try assumption.
    by rewrite HP, HN.
  - apply eq_other_type. eexists. split; [exact Hi | discriminate].
Qed.

(** X12. Two calls of the factory with the same arguments return two
    different instances, with different dicts, that compare equal. *)
Theorem factory_twice_equal_not_identical (P : list V) (N : dict V)
    (s : store V W) :
  (forall x, py_eq x x = true) ->
  dict_wf N ->
  exists i ai ki j aj kj s1 s2,
    argskwargs P N s = (Ok (VInstance i), s1)
    /\ argskwargs P N s1 = (Ok (VInstance j), s2)
    /\ i <> j /\ ki <> kj
    /\ is_bundle s2 i ai ki P N
    /\ is_bundle s2 j aj kj P N
    /\ Arguments___eq__ i (VInstance j) s2 = (Ok true, s2).
Proof.
  intros Hr Hwf.
  destruct (factory_bundle P N s) as (s1 & H1 & Hb1 & Hp1 & _).
  destruct (factory_bundle P N s1) as (s2 & H2 & Hb2 & Hp2 & _).
  pose proof (is_bundle_preserved s1 s2 _ _ _ _ _ Hp2 Hb1) as Hb1'.
  destruct Hb1 as (Hi1 & Ha1 & Hk1).
  apply lookup_lt_Some in Hi1, Hk1.
  exists (length (instances s)), (length (tuples s)), (length (dicts s)),
    (length (instances s1)), (length (tuples s1)), (length (dicts s1)), s1, s2.
  split; [exact H1|]. split; [exact H2|].
  split; [lia|]. split; [lia|].
  split; [exact Hb1'|]. split; [exact Hb2|].
  rewrite (eq_run s2 _ _ _ P N _ _ _ P N Hr Hb1' Hb2 Hwf Hwf).
  by rewrite tuple_eqb_refl, dict_eqb_refl.
Qed.

(** X13. A bundle is not a snapshot.  Iteration yields the stored tuple
    and the stored dict themselves, and after an update in place of that
    dict the bundle holds the updated named arguments: [apply] calls the
    target with them. *)
Theorem stored_dict_is_shared (s : store V W) self a k P N
    (f : pycallable F V) (M' : dict V) :
  is_bundle s self a k P N ->
  let s' := (dict_update_at k M' s).2 in
  Arguments___iter__ self s = (Ok [VTuple a; VDict k], s)
  /\ is_bundle s' self a k P (dict_update N M')
  /\ Arguments_apply self f [] [] s' = call f P (dict_update N M') s'.
Proof.
  intros Hb. pose proof Hb as (Hi & Ha & Hk).
  rewrite (dict_update_at_run s k N M' Hk). cbn [snd].
  assert (Hb' : is_bundle
            (Store (tuples s) (<[k := dict_update N M']> (dicts s))
               (instances s) (env s)) self a k P (dict_update N M')).
  { repeat split; simpl; try assumption.
    apply list_lookup_insert_eq. by eapply lookup_lt_Some. }
  split; [|split; [exact Hb'|]].
  - unfold Arguments___iter__.
    rewrite (bind_Ok _ _ _ _ _ (getattr_args_Ok _ _ _ _ _ Hi)).
    by rewrite (bind_Ok _ _ _ _ _ (getattr_kwargs_Ok _ _ _ _ _ Hi)).
  - rewrite (apply_run _ self a k P (dict_update N M') f [] [] Hb' eq_refl).
    cbn [truthy negb andb]. by rewrite app_nil_r, dict_update_nil.
Qed.

(** X14. [==] does not see the order in which the named arguments were
    given: two bundles with the same positionals and the same named
    arguments, inserted in any two orders, compare equal. *)
Theorem eq_ignores_insertion_order (s : store V W)
    a aa ak b ba bk P N N2 :
  (forall x, py_eq x x = true) ->
  is_bundle s a aa ak P N -> is_bundle s b ba bk P N2 ->
  dict_wf N ->
  N2 ≡ₚ N ->
  Arguments___eq__ a (VInstance b) s = (Ok true, s)
  /\ Arguments___eq__ b (VInstance a) s = (Ok true, s).
Proof.
  intros Hr Ha Hb Hwf Hperm.
  assert (Hwf2 : dict_wf N2) by (unfold dict_wf; by rewrite Hperm).
  assert (Hget : forall key, dict_get key N2 = dict_get key N).
  { intros key. destruct (dict_get key N) as [v|] eqn:Hg.
    - apply dict_get_Some; [assumption|]. rewrite Hperm.
      by apply dict_get_Some.
    - apply dict_get_None. rewrite Hperm. by apply dict_get_None. }
  assert (He : dict_equiv N N2 /\ dict_equiv N2 N).
  { split; intros key; rewrite Hget; destruct (dict_get key N); by auto. }
  destruct He as [He1 He2].
  apply dict_eqb_equiv in He1, He2; try assumption.
  rewrite (eq_run s a aa ak P N b ba bk P N2 Hr Ha Hb Hwf Hwf2).
  rewrite (eq_run s b ba bk P N2 a aa ak P N Hr Hb Ha Hwf2 Hwf).
  by rewrite tuple_eqb_refl, He1, He2.
Qed.

End Model.

(** ** The display format *)

(** C5. [repr] of a bundle is [argskwargs(...)] around the comma-joined
    [repr] of the positionals in their order, followed by [name=repr] for
    the named arguments in increasing order of the names; the order in
    which the named arguments were inserted does not show.  On the bundle
    built from positionals 2, 1 and named b=2, a=1 it is
    [argskwargs(2, 1, a=1, b=2)]. *)
Theorem repr_format :
  (forall (V W : Type) (py_repr : V -> string) (s : store V W)
          self a k P N,
     is_bundle s self a k P N ->
     dict_wf N ->
     Arguments___repr__ py_repr self s
     = (Ok ("argskwargs("
            +:+ String.concat ", "
                  (map py_repr P
                   ++ map (fun nv => nv.1 +:+ "=" +:+ py_repr nv.2)
                          (sorted_items N))
            +:+ ")"), s)
     /\ sorted_items N ≡ₚ N
     /\ StronglySorted String.le (sorted_items N).*1
     /\ (forall self' a' k' N',
           is_bundle s self' a' k' P N' ->
           N' ≡ₚ N ->
           Arguments___repr__ py_repr self' s
           = Arguments___repr__ py_repr self s))
  /\ (let s1 := (argskwargs (W:=pylog) P1 N1 store0).2 in
      Arguments___repr__ pyval_repr 0 s1
      = (Ok "argskwargs(2, 1, a=1, b=2)", s1)).
Proof.
  split.
  - intros V W py_repr s self a k P N Hb Hwf.
    split; [exact (repr_run py_repr s self a k P N Hb)|].
    split; [apply sorted_items_Permutation|].
    split; [apply sorted_items_keys|].
    intros self' a' k' N' Hb' Hperm.
    rewrite (repr_run py_repr s self' a' k' P N' Hb').
    rewrite (repr_run py_repr s self a k P N Hb).
    by rewrite (sorted_items_order N N' Hwf Hperm).
  - vm_compute. reflexivity.
Qed.

(** ** Examples *)

Lemma pyval_eq_refl (x : pyval) : pyval_eq x x = true.
Proof.
  destruct x as [|b|n]; unfold pyval_eq; simpl;
    [reflexivity | destruct b; reflexivity | apply Z.eqb_refl].
Defined.

Lemma store1_bundle0 : is_bundle store1 0 0 0 P1 N1.
Proof. repeat split. Defined.

Lemma store1_bundle1 : is_bundle store1 1 1 1 P1 N2.
Proof. repeat split. Defined.

Lemma N1_wf : dict_wf N1.
Proof. apply (bool_decide_unpack _). vm_compute. exact I. Defined.

Lemma N2_wf : dict_wf N2.
Proof. apply (bool_decide_unpack _). vm_compute. exact I. Defined.

(** The cases of the test suite, run on the model.  The bundle is built
    by the factory in the empty store, so it is instance 0. *)

Example apply_without_extras_example :
  env (bind (argskwargs [PInt 1; PInt 2] [("a", PInt 3)])
         (fun _ => Arguments_apply pyrun 0 (Fn FRecord) [] []) store0).2
  = [([PInt 1; PInt 2], [("a", PInt 3)])].
Proof. reflexivity. Qed.

Example apply_with_extras_example :
  env (bind (argskwargs [PInt 1] [("a", PInt 2)])
         (fun _ =>
            Arguments_apply pyrun 0 (Fn FRecord) [PInt 3] [("b", PInt 4)])
         store0).2
  = [([PInt 1; PInt 3], [("a", PInt 2); ("b", PInt 4)])].
Proof. reflexivity. Qed.

Example apply_collision_example :
  env (bind (argskwargs [] [("a", PInt 1)])
         (fun _ => Arguments_apply pyrun 0 (Fn FRecord) [] [("a", PInt 2)])
         store0).2
  = [([], [("a", PInt 2)])].
Proof. reflexivity. Qed.

Example apply_raises_example :
  (Arguments_apply pyrun 0 (Fn FBoom) [] [] store1).1
  = Raise (Raised (PInt 13)).
Proof. reflexivity. Qed.

Example copy_with_extras_example :
  (bind (argskwargs [PInt 1] [("a", PInt 2)]) (fun _ =>
   bind (Arguments_copy pyrun 0 [PInt 3] [("b", PInt 4)]) (fun b =>
   bind (argskwargs [PInt 1; PInt 3] [("b", PInt 4); ("a", PInt 2)]) (fun c =>
   bind (Arguments___eq__ pyval_eq 1 c) (fun same =>
   ret (b, c, same))))) store0).1
  = Ok (VInstance 1, VInstance 2, true).
Proof. reflexivity. Qed.

Example eq_example :
  (Arguments___eq__ pyval_eq 0 (VInstance 1) store1).1 = Ok true
  /\ (Arguments___eq__ pyval_eq 0 (VInstance 3) store1).1 = Ok false
  /\ (Arguments___eq__ pyval_eq 0 (VElem (PInt 1)) store1).1 = Ok false
  /\ (Arguments___eq__ pyval_eq 0 (VTuple 0) store1).1 = Ok false.
Proof. repeat split. Qed.

Example direct_construction_example :
  (instantiate CArguments 0 0 (VObject 1) store1).1
  = Raise (TypeError
      "Use the argskwargs() function to create instances of this class. (Did you read the docs at all?)")
  /\ (instantiate CArguments 0 0 (VElem PNone) store1).1
     = (instantiate CArguments 0 0 (VObject 1) store1).1.
Proof. split; reflexivity. Qed.

Example partial_example :
  (bind (Arguments_partial 0 (Fn FRecord) [PInt 3] [("a", PInt 9)])
     (fun p => call pyrun p [PInt 4] [("c", PInt 5)]) store1).1
  = Ok (VElem PNone)
  /\ env (bind (Arguments_partial 0 (Fn FRecord) [PInt 3] [("a", PInt 9)])
            (fun p => call pyrun p [PInt 4] [("c", PInt 5)]) store1).2
     = [([PInt 2; PInt 1; PInt 3; PInt 4],
         [("b", PInt 2); ("a", PInt 9); ("c", PInt 5)])].
Proof. split; reflexivity. Qed.

Example reserved_keyword_example :
  (exists msg,
     Arguments_apply pyrun 0 (Fn FRecord) [] [("callable", PInt 2)] store1
     = (Raise (TypeError msg), store1))
  /\ (exists msg,
       Arguments_partial 0 (Fn FRecord) [PInt 3]
         [("x", PInt 1); ("self", PInt 2)] store1
       = (Raise (TypeError msg), store1))
  /\ (exists msg,
       Arguments_copy pyrun 0 [] [("callable", PInt 2)] store1
       = (Raise (TypeError msg), store1))
  /\ (bind (argskwargs [] [("callable", PInt 2)])
        (fun _ => Arguments_apply pyrun 0 (Fn FRecord) [] []) store0).1
     = Ok (VElem PNone).
Proof. repeat split; eexists; reflexivity. Qed.

Example operator_example :
  (operator_eq pyval_eq 0 (VInstance 2) store1).1 = Ok true
  /\ (operator_eq pyval_eq 2 (VInstance 0) store1).1 = Ok true
  /\ (Arguments___eq__ pyval_eq 0 (VInstance 2) store1).1 = Ok false
  /\ (operator_eq pyval_eq 0 (VInstance 1) store1).1 = Ok true
  /\ (operator_eq pyval_eq 0 (VInstance 3) store1).1 = Ok false
  /\ (operator_ne pyval_eq 0 (VElem (PInt 1)) store1).1 = Ok true.
Proof. repeat split. Qed.

(** C2 as stated fails: a direct construction that is handed the sentinel
    object of the module does not raise. *)
Lemma direct_construction_with_sentinel_succeeds :
  ~ (forall (args kwargs : nat) (magic : value pyval)
            (s : store pyval pylog),
       exists msg s',
         instantiate CArguments args kwargs magic s
         = (Raise (TypeError msg), s')).
Proof.
  intros H.
  destruct (H 0 0 _yes_i_am_an_internal_call store1) as (msg & s' & Heq).
  vm_compute in Heq. discriminate Heq.
Qed.

Lemma apply_merges_unless_reserved_keyword_witness :
  ("callable" ∈ ["self"; "callable"]
   /\ "callable" ∈ [("callable", PInt 2)].*1
   /\ exists msg,
        Arguments_apply pyrun 0 (Fn FRecord) [] [("callable", PInt 2)] store1
        = (Raise (TypeError msg), store1))
  /\ is_bundle store1 0 0 0 P1 N1
  /\ dict_wf [("a", PInt 9); ("c", PBool true)]
  /\ binds ["self"; "callable"] [("a", PInt 9); ("c", PBool true)] = true
  /\ (exists s',
        Arguments_apply pyrun 0 (Fn FRecord) [PInt 3]
          [("a", PInt 9); ("c", PBool true)] store1
        = call pyrun (Fn FRecord) (P1 ++ [PInt 3])
            (dict_update N1 [("a", PInt 9); ("c", PBool true)]) s'
        /\ store_preserved store1 s' /\ env s' = env store1).
Proof.
  assert (Hp : "callable" ∈ ["self"; "callable"]) by (right; left).
  assert (Hk : "callable" ∈ [("callable", PInt 2)].*1) by left.
  assert (Hwf : dict_wf [("a", PInt 9); ("c", PBool true)]).
  { apply (bool_decide_unpack _). vm_compute. exact I. }
  split; [split; [exact Hp|split; [exact Hk|]]|].
  - exact (proj1 (apply_merges_unless_reserved_keyword pyrun) store1 0
             (Fn FRecord) [] [("callable", PInt 2)] "callable" Hp Hk).
  - split; [exact store1_bundle0|]. split; [exact Hwf|].
    split; [reflexivity|].
    exact (proj1 (proj2 (apply_merges_unless_reserved_keyword pyrun)
                    store1 0 0 0 P1 N1 (Fn FRecord) [PInt 3]
                    [("a", PInt 9); ("c", PBool true)]
                    store1_bundle0 Hwf eq_refl)).
Defined.

Lemma eq_structural_witness :
  (exists r,
     operator_eq pyval_eq 0 (VInstance 1) store1 = (Ok r, store1)
     /\ operator_ne pyval_eq 0 (VInstance 1) store1 = (Ok (negb r), store1)
     /\ Arguments___eq__ pyval_eq 0 (VInstance 1) store1 = (Ok r, store1)
     /\ Arguments___ne__ pyval_eq 0 (VInstance 1) store1
        = (Ok (negb r), store1)
     /\ (r = true <->
         Forall2 (fun x y => pyval_eq x y = true) P1 P1
         /\ dict_equiv pyval_eq N1 N2))
  /\ non_bundle (VTuple (V:=pyval) 0)
  /\ operator_eq pyval_eq 0 (VTuple 0) store1 = (Ok false, store1)
  /\ operator_ne pyval_eq 0 (VTuple 0) store1 = (Ok true, store1).
Proof.
  assert (Hnb : non_bundle (VTuple (V:=pyval) 0)) by exact I.
  split; [|split; [exact Hnb|]].
  - exact (proj1 (eq_structural pyval_eq) store1 0 0 0 P1 N1 1 1 1 P1 N2
             pyval_eq_refl store1_bundle0 store1_bundle1 N1_wf N2_wf).
  - exact (proj2 (eq_structural pyval_eq) store1 0 (VTuple 0) Hnb).
Defined.

Lemma repr_format_witness :
  is_bundle store1 0 0 0 P1 N1
  /\ dict_wf N1
  /\ Arguments___repr__ pyval_repr 0 store1
     = (Ok "argskwargs(2, 1, a=1, b=2)", store1)
  /\ Arguments___repr__ pyval_repr 1 store1
     = Arguments___repr__ pyval_repr 0 store1.
Proof.
  split; [exact store1_bundle0|]. split; [exact N1_wf|].
  destruct (proj1 repr_format pyval pylog pyval_repr store1 0 0 0 P1 N1
              store1_bundle0 N1_wf) as (Hr & _ & _ & Hord).
  split.
  - rewrite Hr. vm_compute. reflexivity.
  - apply (Hord 1 1 1 N2 store1_bundle1). apply perm_swap.
Defined.

Lemma partial_agrees_with_apply_witness :
  is_bundle store1 0 0 0 P1 N1
  /\ exists p0 s0,
       Arguments_partial 0 (Fn FRecord) [] [] store1 = (Ok p0, s0)
       /\ (call pyrun p0 [] [] s0).1
          = (Arguments_apply pyrun 0 (Fn FRecord) [] [] store1).1
       /\ env (call pyrun p0 [] [] s0).2
          = env (Arguments_apply pyrun 0 (Fn FRecord) [] [] store1).2.
Proof.
  split; [exact store1_bundle0|].
  exact (proj1 (partial_agrees_with_apply pyrun store1 0 0 0 P1 N1
                  (Fn FRecord) store1_bundle0)).
Defined.

Lemma apply_without_extras_witness :
  is_bundle store1 0 0 0 P1 N1
  /\ Arguments_apply pyrun 0 (Fn FRecord) [] [] store1
     = call_star pyrun (Fn FRecord) 0 0 store1.
Proof.
  split; [exact store1_bundle0|].
  exact (proj1 (apply_without_extras_uses_stored_containers pyrun store1
                  0 0 0 P1 N1 (Fn FRecord) store1_bundle0)).
Defined.

Lemma operations_do_not_mutate_witness :
  is_bundle store1 0 0 0 P1 N1
  /\ is_bundle
       (Arguments_apply pyrun 0 FArgskwargs [PInt 3] [("a", PInt 9)] store1).2
       0 0 0 P1 N1
  /\ (Arguments___repr__ pyval_repr 0 store1).2 = store1.
Proof.
  split; [exact store1_bundle0|].
  destruct (operations_do_not_mutate pyval_eq pyval_repr pyrun store1 0 0 0
              P1 N1 store1_bundle0) as (Happly & _ & _ & Hrepr & _).
  split; [|exact Hrepr].
  exact (proj2 (Happly FArgskwargs [PInt 3] [("a", PInt 9)])).
Defined.

Lemma eq_operator_accepts_derived_instance_witness :
  is_bundle store1 0 0 0 P1 N1
  /\ instances store1 !! 2 = Some (Instance (CSubclass 0) (Some 0) (Some 0))
  /\ operator_eq pyval_eq 0 (VInstance 2) store1 = (Ok true, store1)
  /\ operator_ne pyval_eq 0 (VInstance 2) store1 = (Ok false, store1)
  /\ Arguments___eq__ pyval_eq 0 (VInstance 2) store1 = (Ok false, store1).
Proof.
  split; [exact store1_bundle0|]. split; [reflexivity|].
  exact (eq_operator_accepts_derived_instance pyval_eq store1 0 0 0 P1 N1
           2 0 store1_bundle0 eq_refl).
Defined.

(** ** Examples for the further properties *)

Lemma pyval_eq_sym (x y : pyval) : pyval_eq x y = pyval_eq y x.
Proof.
  unfold pyval_eq. destruct (pyval_num x), (pyval_num y); try reflexivity.
  apply Z.eqb_sym.
Defined.

Lemma pyval_eq_trans (x y z : pyval) :
  pyval_eq x y = true -> pyval_eq y z = true -> pyval_eq x z = true.
Proof.
  unfold pyval_eq.
  destruct (pyval_num x), (pyval_num y), (pyval_num z); try done.
  rewrite !Z.eqb_eq. congruence.
Defined.

Lemma N1_N2_equiv : dict_equiv pyval_eq N1 N2.
Proof. apply (dict_eqb_equiv pyval_eq N1 N2 N1_wf N2_wf). reflexivity. Defined.

Lemma apply_factory_builds_new_bundle_witness :
  is_bundle store1 0 0 0 P1 N1
  /\ exists r a' k' s',
       Arguments_apply pyrun 0 FArgskwargs [] [] store1
       = (Ok (VInstance r), s')
       /\ instances store1 !! r = None
       /\ dicts store1 !! k' = None
       /\ is_bundle s' r a' k' (P1 ++ []) (dict_update N1 [])
       /\ is_bundle s' 0 0 0 P1 N1.
Proof.
  split; [exact store1_bundle0|].
  exact (apply_factory_builds_new_bundle pyrun store1 0 0 0 P1 N1 [] []
           store1_bundle0 eq_refl).
Defined.

Lemma copy_merges_into_bundle_witness :
  is_bundle store1 0 0 0 P1 N1
  /\ (exists msg,
        Arguments_copy pyrun 0 [] [("self", PInt 2)] store1
        = (Raise (TypeError msg), store1))
  /\ exists r a' k' s',
       Arguments_copy pyrun 0 [PInt 3] [("a", PInt 9)] store1
       = (Ok (VInstance r), s')
       /\ is_bundle s' r a' k' (P1 ++ [PInt 3])
            (dict_update N1 [("a", PInt 9)])
       /\ store_preserved store1 s'
       /\ (r = 0 <-> [PInt 3] = [] /\ [("a", PInt 9)] = []).
Proof.
  split; [exact store1_bundle0|]. split.
  - exact (proj1 (copy_merges_into_bundle pyrun store1 0 0 0 P1 N1 []
                    [("self", PInt 2)] store1_bundle0) eq_refl).
  - exact (proj2 (copy_merges_into_bundle pyrun store1 0 0 0 P1 N1 [PInt 3]
                    [("a", PInt 9)] store1_bundle0) eq_refl).
Defined.

Lemma copy_composes_witness :
  is_bundle store1 0 0 0 P1 N1
  /\ dict_wf [("a", PInt 9)]
  /\ exists r1 s1 r2 a2 k2 s2 r a' k' s',
       Arguments_copy pyrun 0 [PInt 3] [("a", PInt 9)] store1
       = (Ok (VInstance r1), s1)
       /\ Arguments_copy pyrun r1 [PInt 4] [("c", PInt 5); ("a", PInt 7)] s1
          = (Ok (VInstance r2), s2)
       /\ Arguments_copy pyrun 0 ([PInt 3] ++ [PInt 4])
            (dict_update [("a", PInt 9)] [("c", PInt 5); ("a", PInt 7)])
            store1
          = (Ok (VInstance r), s')
       /\ is_bundle s2 r2 a2 k2 (P1 ++ [PInt 3] ++ [PInt 4])
            (dict_update N1
               (dict_update [("a", PInt 9)] [("c", PInt 5); ("a", PInt 7)]))
       /\ is_bundle s' r a' k' (P1 ++ [PInt 3] ++ [PInt 4])
            (dict_update N1
               (dict_update [("a", PInt 9)] [("c", PInt 5); ("a", PInt 7)])).
Proof.
  assert (Hwf : dict_wf [("a", PInt 9)]).
  { apply (bool_decide_unpack _). vm_compute. exact I. }
  split; [exact store1_bundle0|]. split; [exact Hwf|].
  exact (copy_composes pyrun store1 0 0 0 P1 N1 [PInt 3] [PInt 4]
           [("a", PInt 9)] [("c", PInt 5); ("a", PInt 7)]
           store1_bundle0 Hwf eq_refl eq_refl).
Defined.

Lemma apply_returns_target_outcome_witness :
  is_bundle store1 0 0 0 P1 N1
  /\ (Arguments_apply pyrun 0 (Fn FBoom) [PInt 3] [] store1).1
     = match (pyrun FBoom (P1 ++ [PInt 3]) (dict_update N1 [])
                (env store1)).1 with
       | Ok v => Ok (VElem v)
       | Raise e => Raise e
       end
  /\ env (Arguments_apply pyrun 0 (Fn FBoom) [PInt 3] [] store1).2
     = (pyrun FBoom (P1 ++ [PInt 3]) (dict_update N1 []) (env store1)).2.
Proof.
  split; [exact store1_bundle0|].
  exact (apply_returns_target_outcome pyrun store1 0 0 0 P1 N1 FBoom
           [PInt 3] [] store1_bundle0 eq_refl).
Defined.

Lemma partial_then_call_is_apply_witness :
  is_bundle store1 0 0 0 P1 N1
  /\ dict_wf [("a", PInt 9)]
  /\ exists p s1,
       Arguments_partial 0 (Fn FRecord) [PInt 3] [("a", PInt 9)] store1
       = (Ok p, s1)
       /\ (call pyrun p [PInt 4] [("a", PInt 7)] s1).1
          = (Arguments_apply pyrun 0 (Fn FRecord) ([PInt 3] ++ [PInt 4])
               (dict_update [("a", PInt 9)] [("a", PInt 7)]) store1).1
       /\ env (call pyrun p [PInt 4] [("a", PInt 7)] s1).2
          = env (Arguments_apply pyrun 0 (Fn FRecord) ([PInt 3] ++ [PInt 4])
                   (dict_update [("a", PInt 9)] [("a", PInt 7)]) store1).2.
Proof.
  assert (Hwf : dict_wf [("a", PInt 9)]).
  { apply (bool_decide_unpack _). vm_compute. exact I. }
  split; [exact store1_bundle0|]. split; [exact Hwf|].
  exact (partial_then_call_is_apply pyrun store1 0 0 0 P1 N1 (Fn FRecord)
           [PInt 3] [PInt 4] [("a", PInt 9)] [("a", PInt 7)]
           store1_bundle0 Hwf eq_refl eq_refl).
Defined.

Lemma setstate_getstate_rebuilds_witness :
  is_bundle store1 0 0 0 P1 N1
  /\ operator_eq pyval_eq 0 (VInstance 4)
       (Store (tuples store1) (dicts store1)
          (instances store1 ++ [Instance (CSubclass 1) (Some 0) (Some 0)])
          (env store1))
     = (Ok true,
        Store (tuples store1) (dicts store1)
          (instances store1 ++ [Instance (CSubclass 1) (Some 0) (Some 0)])
          (env store1))
  /\ Arguments___eq__ pyval_eq 0 (VInstance 4)
       (Store (tuples store1) (dicts store1)
          (instances store1 ++ [Instance (CSubclass 1) (Some 0) (Some 0)])
          (env store1))
     = (Ok (bool_decide (CSubclass 1 = CArguments)),
        Store (tuples store1) (dicts store1)
          (instances store1 ++ [Instance (CSubclass 1) (Some 0) (Some 0)])
          (env store1)).
Proof.
  split; [exact store1_bundle0|].
  exact (proj2 (proj2 (setstate_getstate_rebuilds pyval_eq store1 0 0 0
                         P1 N1 (CSubclass 1) store1_bundle0))).
Defined.

Lemma getstate_after_setstate_witness :
  instances store1 !! 2 = Some (Instance (CSubclass 0) (Some 0) (Some 0))
  /\ bind (Arguments___setstate__ 2 (2, 1))
       (fun _ => Arguments___getstate__ 2) store1
     = (Ok (2, 1),
        Store (tuples store1) (dicts store1)
          (<[2 := Instance (CSubclass 0) (Some 2) (Some 1)]>
             (instances store1))
          (env store1)).
Proof.
  split; [reflexivity|].
  exact (getstate_after_setstate store1 2
           (Instance (CSubclass 0) (Some 0) (Some 0)) 2 1 eq_refl).
Defined.

Lemma eq_reflexive_witness :
  is_bundle store1 0 0 0 P1 N1
  /\ Arguments___eq__ pyval_eq 0 (VInstance 0) store1 = (Ok true, store1)
  /\ Arguments___ne__ pyval_eq 0 (VInstance 0) store1 = (Ok false, store1).
Proof.
  split; [exact store1_bundle0|].
  exact (eq_reflexive pyval_eq store1 0 0 0 P1 N1 store1_bundle0).
Defined.

Lemma eq_symmetric_witness :
  Arguments___eq__ pyval_eq 0 (VInstance 1) store1
  = Arguments___eq__ pyval_eq 1 (VInstance 0) store1.
Proof.
  exact (eq_symmetric pyval_eq store1 0 0 0 P1 N1 1 1 1 P1 N2
           pyval_eq_refl pyval_eq_sym store1_bundle0 store1_bundle1
           N1_wf N2_wf).
Defined.

Lemma eq_transitive_witness :
  Arguments___eq__ pyval_eq 0 (VInstance 1) store1 = (Ok true, store1)
  /\ Arguments___eq__ pyval_eq 1 (VInstance 0) store1 = (Ok true, store1)
  /\ Arguments___eq__ pyval_eq 0 (VInstance 0) store1 = (Ok true, store1).
Proof.
  split; [reflexivity|]. split; [reflexivity|].
  exact (eq_transitive pyval_eq store1 0 0 0 P1 N1 1 1 1 P1 N2 0 0 0 P1 N1
           pyval_eq_refl pyval_eq_trans store1_bundle0 store1_bundle1
           store1_bundle0 N1_wf N2_wf N1_wf eq_refl eq_refl).
Defined.

Lemma inherited_eq_not_symmetric_witness :
  instances store1 !! 2 = Some (Instance (CSubclass 0) (Some 0) (Some 0))
  /\ is_bundle store1 1 1 1 P1 N2
  /\ Arguments___eq__ pyval_eq 2 (VInstance 1) store1 = (Ok true, store1)
  /\ Arguments___eq__ pyval_eq 1 (VInstance 2) store1 = (Ok false, store1).
Proof.
  split; [reflexivity|]. split; [exact store1_bundle1|].
  apply (inherited_eq_not_symmetric pyval_eq store1 2 0 0 0 P1 N1 1 1 1 P1 N2
           pyval_eq_refl eq_refl eq_refl eq_refl store1_bundle1 N1_wf N2_wf).
  - repeat constructor.
  - exact N1_N2_equiv.
Defined.

Lemma factory_twice_equal_not_identical_witness :
  dict_wf N1
  /\ exists i ai ki j aj kj s1 s2,
       argskwargs P1 N1 store0 = (Ok (VInstance i), s1)
       /\ argskwargs P1 N1 s1 = (Ok (VInstance j), s2)
       /\ i <> j /\ ki <> kj
       /\ is_bundle s2 i ai ki P1 N1
       /\ is_bundle s2 j aj kj P1 N1
       /\ Arguments___eq__ pyval_eq i (VInstance j) s2 = (Ok true, s2).
Proof.
  split; [exact N1_wf|].
  exact (factory_twice_equal_not_identical pyval_eq P1 N1 store0
           pyval_eq_refl N1_wf).
Defined.

Lemma stored_dict_is_shared_witness :
  is_bundle store1 0 0 0 P1 N1
  /\ Arguments___iter__ 0 store1 = (Ok [VTuple 0; VDict 0], store1)
  /\ is_bundle (dict_update_at 0 [("c", PInt 5)] store1).2 0 0 0 P1
       (dict_update N1 [("c", PInt 5)])
  /\ Arguments_apply pyrun 0 (Fn FRecord) [] []
       (dict_update_at 0 [("c", PInt 5)] store1).2
     = call pyrun (Fn FRecord) P1 (dict_update N1 [("c", PInt 5)])
         (dict_update_at 0 [("c", PInt 5)] store1).2.
Proof.
  split; [exact store1_bundle0|].
  exact (stored_dict_is_shared pyrun store1 0 0 0 P1 N1 (Fn FRecord)
           [("c", PInt 5)] store1_bundle0).
Defined.

Lemma eq_ignores_insertion_order_witness :
  is_bundle store1 0 0 0 P1 N1
  /\ is_bundle store1 1 1 1 P1 N2
  /\ N2 ≡ₚ N1
  /\ Arguments___eq__ pyval_eq 0 (VInstance 1) store1 = (Ok true, store1)
  /\ Arguments___eq__ pyval_eq 1 (VInstance 0) store1 = (Ok true, store1).
Proof.
  assert (Hperm : N2 ≡ₚ N1) by apply perm_swap.
  split; [exact store1_bundle0|]. split; [exact store1_bundle1|].
  split; [exact Hperm|].
  exact (eq_ignores_insertion_order pyval_eq store1 0 0 0 1 1 1 P1 N1 N2
           pyval_eq_refl store1_bundle0 store1_bundle1 N1_wf Hperm).
Defined.
